(** * Radar turret web client: polling, decay buffer and renderer

    A shallow embedding of the script of [src/radar_turret/web.h]
    (lines 368-616): the module-level view variables, [pollStatus] with
    its promise chain, [updateUI] and [draw].

    JavaScript numbers are IEEE 754 binary64 values, so they are modelled
    by Rocq's primitive floats, whose operations are the same roundings.
    Handlers run one at a time on the event loop; each one is a
    computation in a state monad with exceptions, where a thrown
    exception keeps every mutation made before it. *)

From Stdlib Require Import Floats ZArith QArith Qabs List String Ascii Bool Lia.
Import ListNotations.

Set Warnings "-inexact-float".
Local Open Scope string_scope.
Local Open Scope list_scope.
Local Open Scope float_scope.

(** ** JavaScript values *)

(** The fields of a [/status] response are numbers or absent, and the
    view variables only ever hold what was read from them. *)
Module JS.

Inductive value : Type :=
| undefined
| number (x : float).

Definition ToNumber (v : value) : float :=
  match v with
  | undefined => nan
  | number x => x
  end.

(** Falsy: [undefined], [+0], [-0] and [NaN]. *)
Definition ToBoolean (v : value) : bool :=
  match v with
  | undefined => false
  | number x => negb ((x =? 0) || is_nan x)
  end.

(** [a || b] *)
Definition or (a b : value) : value := if ToBoolean a then a else b.

(** [a && b] *)
Definition and (a b : value) : value := if ToBoolean a then b else a.

(** [a > b] *)
Definition gt (a b : value) : bool := ToNumber b <? ToNumber a.

(** [a === b] *)
Definition strict_equals (a b : value) : bool :=
  match a, b with
  | undefined, undefined => true
  | number x, number y => x =? y
  | _, _ => false
  end.

(** [s || dflt] on a string that may be [undefined]: the empty string
    is falsy too. *)
Definition string_or (s : option string) (dflt : string) : string :=
  match s with
  | Some EmptyString | None => dflt
  | Some c => c
  end.

(** [arr[i]]: the property key of a number is its canonical string, so
    it names element [k] exactly when the number equals [k] ([-0] reads
    element 0; [NaN], fractions, negatives and indices past the end read
    [undefined], here [None]). *)
Fixpoint element_from {A : Type} (arr : list A) (k i : float) : option A :=
  match arr with
  | [] => None
  | x :: rest => if i =? k then Some x else element_from rest (k + 1) i
  end.

Definition element {A : Type} (arr : list A) (i : value) : option A :=
  match i with
  | undefined => None
  | number x => element_from arr 0 x
  end.

Definition upper (c : ascii) : ascii :=
  let n := nat_of_ascii c in
  if (97 <=? n)%nat && (n <=? 122)%nat then ascii_of_nat (n - 32) else c.

Fixpoint toUpperCase (s : string) : string :=
  match s with
  | EmptyString => EmptyString
  | String c rest => String (upper c) (toUpperCase rest)
  end.

(** [Math.min] of two numbers. *)
Definition Math_min (x y : float) : float :=
  if is_nan x || is_nan y then nan
  else if x <? y then x
  else if y <? x then y
  else if (x =? 0) && (1 / x <? 0) then x
  else y.

(** [Math.PI] *)
Definition Math_PI : float := 3.141592653589793.

End JS.

(** [Math.cos] and [Math.sin] return implementation-approximated values:
    the engine is a parameter of the renderer. *)
Class MathLib : Type := {
  Math_cos : float -> float;
  Math_sin : float -> float
}.

(** ** The [/status] response *)

Module Data.
Record t : Type := {
  a : JS.value;
  r : JS.value;
  mode : JS.value;
  running : JS.value;
  d : JS.value;
  li_a : JS.value;
  li_d : JS.value
}.
End Data.

(** What [r.json()] resolves to. Reading a property of [null] throws; of
    any other JSON value that is not an object it gives [undefined], as of
    an object without that field. *)
Inductive json : Type :=
| JsonNull
| JsonObject (data : Data.t).

(** How one [fetch('/status')] settles. *)
Inductive outcome : Type :=
| NetworkError
| NotOk
| NotJson
| Resolved (data : json).

(** ** The decay buffer *)

Module Obj.
Record t : Type := {
  a : JS.value;
  r : JS.value;
  life : float
}.
End Obj.

(** ** The page: canvas context and widgets *)

Inductive style : Type :=
| Css (s : string)
| Rgba (red green blue : Z) (alpha : float).

(** Assignments to and calls on [ctx], in the order they are made. *)
Inductive ctx_op : Type :=
| fillStyle (c : style)
| strokeStyle (c : style)
| lineWidth (w : float)
| font (f : string)
| textAlign (al : string)
| fillRect (x y w h : float)
| beginPath
| moveTo (x y : float)
| lineTo (x y : float)
| arc (x y radius startAngle endAngle : float)
| stroke
| fill
| fillText (text : string) (x y : float).

(** The text of [#last-detection]. *)
Inductive footer : Type :=
| READY
| LAST (li_d li_a : JS.value).

(** The state of the page: the module-level variables, the size of the
    canvas element, what was done on its context since the canvas was
    last cleared and reset (in a freshly reset context, so these calls
    give what is on the canvas), and the widgets. *)
Record State : Type := {
  width : JS.value;
  height : JS.value;
  scanAngle : JS.value;
  maxRange : JS.value;
  currentMode : JS.value;
  isRunning : bool;
  isOffline : bool;
  objects : list Obj.t;
  canvas_size : Z * Z;
  ctx_calls : list ctx_op;
  last_detection : footer;
  badge_className : string;
  badge_textContent : string;
  toggle_textContent : string;
  toggle_active : bool;
  mode_selected : list bool
}.

Definition set_width v s :=
  {| width := v; height := height s; scanAngle := scanAngle s;
     maxRange := maxRange s; currentMode := currentMode s;
     isRunning := isRunning s; isOffline := isOffline s;
     objects := objects s; canvas_size := canvas_size s;
     ctx_calls := ctx_calls s; last_detection := last_detection s;
     badge_className := badge_className s;
     badge_textContent := badge_textContent s;
     toggle_textContent := toggle_textContent s;
     toggle_active := toggle_active s; mode_selected := mode_selected s |}.

Definition set_height v s :=
  {| width := width s; height := v; scanAngle := scanAngle s;
     maxRange := maxRange s; currentMode := currentMode s;
     isRunning := isRunning s; isOffline := isOffline s;
     objects := objects s; canvas_size := canvas_size s;
     ctx_calls := ctx_calls s; last_detection := last_detection s;
     badge_className := badge_className s;
     badge_textContent := badge_textContent s;
     toggle_textContent := toggle_textContent s;
     toggle_active := toggle_active s; mode_selected := mode_selected s |}.

Definition set_scanAngle v s :=
  {| width := width s; height := height s; scanAngle := v;
     maxRange := maxRange s; currentMode := currentMode s;
     isRunning := isRunning s; isOffline := isOffline s;
     objects := objects s; canvas_size := canvas_size s;
     ctx_calls := ctx_calls s; last_detection := last_detection s;
     badge_className := badge_className s;
     badge_textContent := badge_textContent s;
     toggle_textContent := toggle_textContent s;
     toggle_active := toggle_active s; mode_selected := mode_selected s |}.

Definition set_maxRange v s :=
  {| width := width s; height := height s; scanAngle := scanAngle s;
     maxRange := v; currentMode := currentMode s;
     isRunning := isRunning s; isOffline := isOffline s;
     objects := objects s; canvas_size := canvas_size s;
     ctx_calls := ctx_calls s; last_detection := last_detection s;
     badge_className := badge_className s;
     badge_textContent := badge_textContent s;
     toggle_textContent := toggle_textContent s;
     toggle_active := toggle_active s; mode_selected := mode_selected s |}.

Definition set_currentMode v s :=
  {| width := width s; height := height s; scanAngle := scanAngle s;
     maxRange := maxRange s; currentMode := v;
     isRunning := isRunning s; isOffline := isOffline s;
     objects := objects s; canvas_size := canvas_size s;
     ctx_calls := ctx_calls s; last_detection := last_detection s;
     badge_className := badge_className s;
     badge_textContent := badge_textContent s;
     toggle_textContent := toggle_textContent s;
     toggle_active := toggle_active s; mode_selected := mode_selected s |}.

Definition set_isRunning v s :=
  {| width := width s; height := height s; scanAngle := scanAngle s;
     maxRange := maxRange s; currentMode := currentMode s;
     isRunning := v; isOffline := isOffline s;
     objects := objects s; canvas_size := canvas_size s;
     ctx_calls := ctx_calls s; last_detection := last_detection s;
     badge_className := badge_className s;
     badge_textContent := badge_textContent s;
     toggle_textContent := toggle_textContent s;
     toggle_active := toggle_active s; mode_selected := mode_selected s |}.

Definition set_isOffline v s :=
  {| width := width s; height := height s; scanAngle := scanAngle s;
     maxRange := maxRange s; currentMode := currentMode s;
     isRunning := isRunning s; isOffline := v;
     objects := objects s; canvas_size := canvas_size s;
     ctx_calls := ctx_calls s; last_detection := last_detection s;
     badge_className := badge_className s;
     badge_textContent := badge_textContent s;
     toggle_textContent := toggle_textContent s;
     toggle_active := toggle_active s; mode_selected := mode_selected s |}.

Definition set_objects v s :=
  {| width := width s; height := height s; scanAngle := scanAngle s;
     maxRange := maxRange s; currentMode := currentMode s;
     isRunning := isRunning s; isOffline := isOffline s;
     objects := v; canvas_size := canvas_size s;
     ctx_calls := ctx_calls s; last_detection := last_detection s;
     badge_className := badge_className s;
     badge_textContent := badge_textContent s;
     toggle_textContent := toggle_textContent s;
     toggle_active := toggle_active s; mode_selected := mode_selected s |}.

Definition set_canvas_size v s :=
  {| width := width s; height := height s; scanAngle := scanAngle s;
     maxRange := maxRange s; currentMode := currentMode s;
     isRunning := isRunning s; isOffline := isOffline s;
     objects := objects s; canvas_size := v;
     ctx_calls := ctx_calls s; last_detection := last_detection s;
     badge_className := badge_className s;
     badge_textContent := badge_textContent s;
     toggle_textContent := toggle_textContent s;
     toggle_active := toggle_active s; mode_selected := mode_selected s |}.

Definition set_ctx_calls v s :=
  {| width := width s; height := height s; scanAngle := scanAngle s;
     maxRange := maxRange s; currentMode := currentMode s;
     isRunning := isRunning s; isOffline := isOffline s;
     objects := objects s; canvas_size := canvas_size s;
     ctx_calls := v; last_detection := last_detection s;
     badge_className := badge_className s;
     badge_textContent := badge_textContent s;
     toggle_textContent := toggle_textContent s;
     toggle_active := toggle_active s; mode_selected := mode_selected s |}.

Definition set_last_detection v s :=
  {| width := width s; height := height s; scanAngle := scanAngle s;
     maxRange := maxRange s; currentMode := currentMode s;
     isRunning := isRunning s; isOffline := isOffline s;
     objects := objects s; canvas_size := canvas_size s;
     ctx_calls := ctx_calls s; last_detection := v;
     badge_className := badge_className s;
     badge_textContent := badge_textContent s;
     toggle_textContent := toggle_textContent s;
     toggle_active := toggle_active s; mode_selected := mode_selected s |}.

Definition set_badge_className v s :=
  {| width := width s; height := height s; scanAngle := scanAngle s;
     maxRange := maxRange s; currentMode := currentMode s;
     isRunning := isRunning s; isOffline := isOffline s;
     objects := objects s; canvas_size := canvas_size s;
     ctx_calls := ctx_calls s; last_detection := last_detection s;
     badge_className := v;
     badge_textContent := badge_textContent s;
     toggle_textContent := toggle_textContent s;
     toggle_active := toggle_active s; mode_selected := mode_selected s |}.

Definition set_badge_textContent v s :=
  {| width := width s; height := height s; scanAngle := scanAngle s;
     maxRange := maxRange s; currentMode := currentMode s;
     isRunning := isRunning s; isOffline := isOffline s;
     objects := objects s; canvas_size := canvas_size s;
     ctx_calls := ctx_calls s; last_detection := last_detection s;
     badge_className := badge_className s;
     badge_textContent := v;
     toggle_textContent := toggle_textContent s;
     toggle_active := toggle_active s; mode_selected := mode_selected s |}.

Definition set_toggle v act s :=
  {| width := width s; height := height s; scanAngle := scanAngle s;
     maxRange := maxRange s; currentMode := currentMode s;
     isRunning := isRunning s; isOffline := isOffline s;
     objects := objects s; canvas_size := canvas_size s;
     ctx_calls := ctx_calls s; last_detection := last_detection s;
     badge_className := badge_className s;
     badge_textContent := badge_textContent s;
     toggle_textContent := v;
     toggle_active := act; mode_selected := mode_selected s |}.

Definition set_mode_selected v s :=
  {| width := width s; height := height s; scanAngle := scanAngle s;
     maxRange := maxRange s; currentMode := currentMode s;
     isRunning := isRunning s; isOffline := isOffline s;
     objects := objects s; canvas_size := canvas_size s;
     ctx_calls := ctx_calls s; last_detection := last_detection s;
     badge_className := badge_className s;
     badge_textContent := badge_textContent s;
     toggle_textContent := toggle_textContent s;
     toggle_active := toggle_active s; mode_selected := v |}.

(** ** Handlers: state with exceptions *)

Inductive Result (A : Type) : Type :=
| Ok (x : A) (s : State)
| Throw (s : State).
Arguments Ok {A} x s.
Arguments Throw {A} s.

Definition M (A : Type) : Type := State -> Result A.

Definition ret {A : Type} (x : A) : M A := fun s => Ok x s.

Definition bind {A B : Type} (m : M A) (k : A -> M B) : M B :=
  fun s =>
    match m s with
    | Ok x s' => k x s'
    | Throw s' => Throw s'
    end.

Definition throw {A : Type} : M A := fun s => Throw s.

Definition get : M State := fun s => Ok s s.

Definition modify (f : State -> State) : M unit := fun s => Ok tt (f s).

(** [p.catch(h)] after a step [m] of the chain: [h] runs in the state the
    exception left. *)
Definition try_catch {A : Type} (m h : M A) : M A :=
  fun s =>
    match m s with
    | Ok x s' => Ok x s'
    | Throw s' => h s'
    end.

Definition state_of {A : Type} (r : Result A) : State :=
  match r with
  | Ok _ s => s
  | Throw s => s
  end.

Declare Scope js_scope.
Delimit Scope js_scope with js.
Notation "x <- m ;; k" := (bind m (fun x => k))
  (at level 100, m at next level, right associativity) : js_scope.
Notation "m ;; k" := (bind m (fun _ => k))
  (at level 100, right associativity) : js_scope.
Local Open Scope js_scope.

Definition when (b : bool) (m : M unit) : M unit := if b then m else ret tt.

Fixpoint forEach {A : Type} (l : list A) (f : A -> M unit) : M unit :=
  match l with
  | [] => ret tt
  | x :: rest => f x ;; forEach rest f
  end.

(** *** The canvas context *)

Definition is_finite (x : float) : bool := negb (is_nan x || is_infinity x).

(** [arc] returns at once on an infinite or [NaN] argument and otherwise
    throws [IndexSizeError] on a negative radius; no other call or
    assignment the script makes on [ctx] throws. *)
Definition rejects (op : ctx_op) : bool :=
  match op with
  | arc x y radius a0 a1 =>
      (radius <? 0) && forallb is_finite [x; y; radius; a0; a1]
  | _ => false
  end.

Definition call (op : ctx_op) : M unit :=
  fun s =>
    if rejects op then Throw s
    else Ok tt (set_ctx_calls (ctx_calls s ++ [op]) s).

(** ** The script *)

Definition modeNames : list string :=
  ["sentry"; "stealth"; "aggressive"; "party"].
Definition modeColors : list string := ["#0f0"; "#666"; "#f00"; "#f0f"].

(** The module-level variables and the page as served, before [init]. *)
Definition loaded : State :=
  {| width := JS.undefined; height := JS.undefined;
     scanAngle := JS.number 90; maxRange := JS.number 50;
     currentMode := JS.number 0; isRunning := false; isOffline := true;
     objects := [];
     canvas_size := (300%Z, 150%Z);
     ctx_calls := [];
     last_detection := READY;
     badge_className := "offline"; badge_textContent := "OFFLINE";
     toggle_textContent := "START"; toggle_active := false;
     mode_selected := [false; false; false; false] |}.

(** *** The canvas element

    [canvas.width] and [canvas.height] are unsigned long attributes that
    reflect the content attributes, with the defaults 300 and 150. A
    number assigned to one is truncated to an integer and reduced modulo
    2^32 (no integer for [NaN] and the infinities: 0); a result above
    2^31 - 1 is replaced by the default. *)
Definition trunc (x : float) : Z :=
  match Prim2SF x with
  | S754_finite sign m e =>
      let n := match e with
               | Zneg k => (Zpos m / 2 ^ Zpos k)%Z
               | _ => (Zpos m * 2 ^ e)%Z
               end in
      if sign then (- n)%Z else n
  | _ => 0%Z
  end.

Definition unsigned_long (dflt : Z) (x : float) : Z :=
  let n := (trunc x mod 2 ^ 32)%Z in
  if (n <=? 2147483647)%Z then n else dflt.

(** Assigning either attribute, also with the value it has, clears the
    canvas and resets the context to its initial state: [ctx_calls] holds
    what was done on the context since. *)
Definition assign_canvas (size : State -> Z * Z) : M unit :=
  modify (fun s => set_ctx_calls [] (set_canvas_size (size s) s)).

Definition resizeCanvas (clientWidth : float) : M unit :=
  modify (set_width (JS.number (JS.Math_min (clientWidth - 20) 500))) ;;
  modify (set_height (JS.number 260)) ;;
  assign_canvas (fun s => (unsigned_long 300 (JS.ToNumber (width s)),
                           snd (canvas_size s))) ;;
  assign_canvas (fun s => (fst (canvas_size s),
                           unsigned_long 150 (JS.ToNumber (height s)))).

Definition updateUI : M unit :=
  s <- get ;;
  (if isOffline s then
     modify (set_badge_className "offline") ;;
     modify (set_badge_textContent "OFFLINE")
   else
     modify (set_badge_className
               (match JS.element modeNames (currentMode s) with
                | Some name => name
                | None => "undefined"
                end)) ;;
     match JS.element modeNames (currentMode s) with
     | Some name => modify (set_badge_textContent (JS.toUpperCase name))
     | None => throw
     end) ;;
  modify (set_toggle (if isRunning s then "STOP" else "START") (isRunning s)) ;;
  modify (set_mode_selected
            (map (fun i => JS.strict_equals (JS.number i) (currentMode s))
                 [0; 1; 2; 3])).

Definition decay (obj : Obj.t) : Obj.t :=
  {| Obj.a := Obj.a obj; Obj.r := Obj.r obj; Obj.life := Obj.life obj - 0.02 |}.

Definition alive (obj : Obj.t) : bool := 0 <? Obj.life obj.

Section Script.

Context {engine : MathLib}.

(** The callback of the last [objects.forEach] of [draw], which closes
    over [cx], [cy] and [radius] and reads the global [maxRange]. *)
Definition draw_object (cx cy radius : float) (obj : Obj.t) : M unit :=
  s <- get ;;
  let objRad := - JS.ToNumber (Obj.a obj) * JS.Math_PI / 180 in
  let dist := JS.ToNumber (Obj.r obj) / JS.ToNumber (maxRange s) * radius in
  when ((0 <? dist) && (dist <=? radius))
    (let x := cx + dist * Math_cos objRad in
     let y := cy + dist * Math_sin objRad in
     call (fillStyle (Rgba 255 50 50 (Obj.life obj))) ;;
     call beginPath ;;
     call (arc x y (4 + (1 - Obj.life obj) * 4) 0 (JS.Math_PI * 2)) ;;
     call fill).

Definition draw : M unit :=
  call (fillStyle (Css "#000")) ;;
  s <- get ;;
  call (fillRect 0 0 (JS.ToNumber (width s)) (JS.ToNumber (height s))) ;;
  let cx := JS.ToNumber (width s) / 2 in
  let cy := JS.ToNumber (height s) - 5 in
  let radius := JS.ToNumber (height s) - 15 in
  let color := JS.string_or (JS.element modeColors (currentMode s)) "#0f0" in
  (* Draw grid arcs *)
  call (strokeStyle (Css "#222")) ;;
  call (lineWidth 1) ;;
  forEach [1; 2; 3; 4] (fun i =>
    call beginPath ;;
    call (arc cx cy (radius * (i / 4)) JS.Math_PI 0) ;;
    call stroke) ;;
  (* Draw angle lines *)
  forEach [30; 60; 90; 120; 150] (fun deg =>
    let rad := - deg * JS.Math_PI / 180 in
    call beginPath ;;
    call (moveTo cx cy) ;;
    call (lineTo (cx + radius * Math_cos rad) (cy + radius * Math_sin rad)) ;;
    call stroke) ;;
  (* Draw scan line *)
  let scanRad := - JS.ToNumber (scanAngle s) * JS.Math_PI / 180 in
  call (strokeStyle (Css color)) ;;
  call (lineWidth 2) ;;
  call beginPath ;;
  call (moveTo cx cy) ;;
  call (lineTo (cx + radius * Math_cos scanRad)
               (cy + radius * Math_sin scanRad)) ;;
  call stroke ;;
  (* Draw sweep glow *)
  call (fillStyle (Css (color ++ "20")%string)) ;;
  call beginPath ;;
  call (moveTo cx cy) ;;
  call (arc cx cy radius (scanRad - 0.1) (scanRad + 0.02)) ;;
  call fill ;;
  (* Draw detected objects *)
  modify (fun s => set_objects (map decay (objects s)) s) ;;
  modify (fun s => set_objects (filter alive (objects s)) s) ;;
  s' <- get ;;
  forEach (objects s') (draw_object cx cy radius) ;;
  (* Draw offline message *)
  s'' <- get ;;
  when (isOffline s'')
    (call (fillStyle (Css "#f00")) ;;
     call (font "bold 16px monospace") ;;
     call (textAlign "center") ;;
     call (fillText "DISCONNECTED" cx (cy - 40))).

(** [data.f] in the handler of a resolved response. *)
Definition prop (data : json) (f : Data.t -> JS.value) : M JS.value :=
  match data with
  | JsonNull => throw
  | JsonObject o => ret (f o)
  end.

(** The [.then(data => ...)] handler of [pollStatus], up to the two
    calls that end it: the response is stored in the view variables. *)
Definition store_status (data : json) : M unit :=
  modify (set_isOffline false) ;;
  a <- prop data Data.a ;;
  modify (set_scanAngle a) ;;
  r <- prop data Data.r ;;
  modify (set_maxRange (JS.or r (JS.number 50))) ;;
  mode <- prop data Data.mode ;;
  modify (set_currentMode (JS.or mode (JS.number 0))) ;;
  running <- prop data Data.running ;;
  modify (set_isRunning (JS.strict_equals running (JS.number 1))) ;;
  (* Add detected object *)
  d <- prop data Data.d ;;
  when (JS.gt d (JS.number 0))
    (a <- prop data Data.a ;;
     d <- prop data Data.d ;;
     modify (fun s =>
       set_objects
         (objects s ++ [{| Obj.a := a; Obj.r := d; Obj.life := 1.0 |}]) s)) ;;
  (* Update last detection *)
  li_a <- prop data Data.li_a ;;
  li_d <- prop data Data.li_d ;;
  when (JS.ToBoolean (JS.and li_a li_d))
    (li_d <- prop data Data.li_d ;;
     li_a <- prop data Data.li_a ;;
     modify (set_last_detection (LAST li_d li_a))).

Definition on_status (data : json) : M unit :=
  store_status data ;;
  updateUI ;;
  draw.

(** The [.catch(() => ...)] handler of [pollStatus]. *)
Definition on_failure : M unit :=
  modify (set_isOffline true) ;;
  updateUI ;;
  draw.

(** [fetch('/status').then(r => r.ok ? r.json() : Promise.reject())]:
    what reaches the [data] handler, or a rejection. *)
Definition response (o : outcome) : M json :=
  match o with
  | Resolved data => ret data
  | NetworkError | NotOk | NotJson => throw
  end.

(** One tick of [setInterval(pollStatus, 100)], from the request to the
    end of the handlers that its response runs. Handlers run to completion
    on the event loop, so a poll is one step of the page, taken when its
    response arrives. *)
Definition pollStatus (o : outcome) : M unit :=
  try_catch (data <- response o ;; on_status data) on_failure.

(** [init()] on a container of the given [clientWidth]. *)
Definition init (clientWidth : float) : M unit :=
  resizeCanvas clientWidth ;;
  draw.

(** What happens on the page after [init]. *)
Inductive event : Type :=
| Poll (o : outcome)
| Resize (clientWidth : float).

Definition handle (s : State) (ev : event) : State :=
  match ev with
  | Poll o => state_of (pollStatus o s)
  | Resize clientWidth => state_of (resizeCanvas clientWidth s)
  end.

Definition run (clientWidth : float) (evs : list event) : State :=
  fold_left handle evs (state_of (init clientWidth loaded)).

End Script.

(** ** What the calls on the context paint

    The 2D context keeps a current fill style, stroke style, line width,
    font, text alignment and path; [fillRect], [stroke], [fill] and
    [fillText] paint with them. An assignment of a value the context
    cannot read, and a path call with an infinite or [NaN] argument, are
    ignored: the context is left as it was. *)

Record pen : Type := {
  pen_fillStyle : style;
  pen_strokeStyle : style;
  pen_lineWidth : float;
  pen_font : string;
  pen_textAlign : string;
  pen_path : list ctx_op
}.

Inductive shape : Type :=
| Rect (c : style) (x y w h : float)
| Outline (c : style) (w : float) (path : list ctx_op)
| Area (c : style) (path : list ctx_op)
| Label (c : style) (f al text : string) (x y : float).

Definition hex_digit (c : ascii) : bool :=
  let n := nat_of_ascii c in
  ((48 <=? n) && (n <=? 57) || (65 <=? n) && (n <=? 70)
   || (97 <=? n) && (n <=? 102))%nat.

(** A color in hexadecimal notation: [#] and 3, 4, 6 or 8 digits. *)
Definition hex_color (s : string) : bool :=
  match s with
  | String "#" digits =>
      forallb hex_digit (list_ascii_of_string digits)
      && match String.length digits with
         | 3%nat | 4%nat | 6%nat | 8%nat => true
         | _ => false
         end
  | _ => false
  end.

(** Whether the context reads a style as a color. Every string the script
    assigns starts with [#], where the hexadecimal notation is the only
    reading (color names and the other notations, which the script does
    not use, are not decided here); the template [rgba(255, 50, 50, life)]
    is a color when [life] prints as a number. *)
Definition parses (c : style) : bool :=
  match c with
  | Css s => hex_color s
  | Rgba _ _ _ alpha => is_finite alpha
  end.

(** A path call the context takes: one with finite arguments. *)
Definition takes (op : ctx_op) : bool :=
  match op with
  | moveTo x y | lineTo x y => is_finite x && is_finite y
  | arc x y radius a0 a1 => forallb is_finite [x; y; radius; a0; a1]
  | _ => false
  end.

(** What a run of path calls adds to the path. *)
Definition traced (ops : list ctx_op) : list ctx_op := filter takes ops.

Definition alignments : list string :=
  ["start"; "end"; "left"; "right"; "center"].

Definition with_path (path : list ctx_op) (p : pen) : pen :=
  {| pen_fillStyle := pen_fillStyle p; pen_strokeStyle := pen_strokeStyle p;
     pen_lineWidth := pen_lineWidth p; pen_font := pen_font p;
     pen_textAlign := pen_textAlign p; pen_path := path |}.

(** The context after one call. The one font the script assigns,
    [bold 16px monospace], is one the context reads; the grammar of fonts
    is not modelled. *)
Definition dip (p : pen) (op : ctx_op) : pen :=
  match op with
  | fillStyle c =>
      {| pen_fillStyle := if parses c then c else pen_fillStyle p;
         pen_strokeStyle := pen_strokeStyle p;
         pen_lineWidth := pen_lineWidth p; pen_font := pen_font p;
         pen_textAlign := pen_textAlign p; pen_path := pen_path p |}
  | strokeStyle c =>
      {| pen_fillStyle := pen_fillStyle p;
         pen_strokeStyle := if parses c then c else pen_strokeStyle p;
         pen_lineWidth := pen_lineWidth p; pen_font := pen_font p;
         pen_textAlign := pen_textAlign p; pen_path := pen_path p |}
  | lineWidth w =>
      {| pen_fillStyle := pen_fillStyle p; pen_strokeStyle := pen_strokeStyle p;
         pen_lineWidth := if is_finite w && (0 <? w) then w
                          else pen_lineWidth p;
         pen_font := pen_font p;
         pen_textAlign := pen_textAlign p; pen_path := pen_path p |}
  | font f =>
      {| pen_fillStyle := pen_fillStyle p; pen_strokeStyle := pen_strokeStyle p;
         pen_lineWidth := pen_lineWidth p; pen_font := f;
         pen_textAlign := pen_textAlign p; pen_path := pen_path p |}
  | textAlign al =>
      {| pen_fillStyle := pen_fillStyle p; pen_strokeStyle := pen_strokeStyle p;
         pen_lineWidth := pen_lineWidth p; pen_font := pen_font p;
         pen_textAlign := if existsb (String.eqb al) alignments then al
                          else pen_textAlign p;
         pen_path := pen_path p |}
  | beginPath => with_path [] p
  | moveTo _ _ | lineTo _ _ | arc _ _ _ _ _ =>
      with_path (pen_path p ++ traced [op]) p
  | fillRect _ _ _ _ | stroke | fill | fillText _ _ _ => p
  end.

(** What one call paints, with the coordinates it is given. *)
Definition mark (p : pen) (op : ctx_op) : list shape :=
  match op with
  | fillRect x y w h => [Rect (pen_fillStyle p) x y w h]
  | stroke => [Outline (pen_strokeStyle p) (pen_lineWidth p) (pen_path p)]
  | fill => [Area (pen_fillStyle p) (pen_path p)]
  | fillText text x y =>
      [Label (pen_fillStyle p) (pen_font p) (pen_textAlign p) text x y]
  | _ => []
  end.

Fixpoint paint (p : pen) (ops : list ctx_op) : list shape :=
  match ops with
  | [] => []
  | op :: rest => mark p op ++ paint (dip p op) rest
  end.

(** The calls made on the context between two states of a handler. *)
Definition calls_since (s s' : State) : list ctx_op :=
  skipn (List.length (ctx_calls s)) (ctx_calls s').

(** A render pass starts by clearing the surface: the only [fillRect]. *)
Definition clears (op : ctx_op) : bool :=
  match op with
  | fillRect _ _ _ _ => true
  | _ => false
  end.

Definition passes (ops : list ctx_op) : nat :=
  List.length (filter clears ops).

(** * Notions the properties are stated with *)

(** ** The decay buffer over time *)

(** [tick()]: the two statements of [draw] on [objects]. *)
Definition tick (objs : list Obj.t) : list Obj.t := filter alive (map decay objs).

(** The [life] of a detection after [k] render passes. *)
Fixpoint life_after (k : nat) : float :=
  match k with
  | O => 1.0
  | S k' => life_after k' - 0.02
  end.

(** The lives a detection goes through while it is in the buffer. *)
Definition lives : list float := map life_after (seq 0 50).

Definition fresh (l : float) : bool := existsb (Leibniz.eqb l) lives.

(** What every state of the page satisfies once [init] has run: the canvas
    is 260 high and the buffer holds detections on their way down from
    [life] 1. *)
Definition settled (s : State) : bool :=
  match height s with
  | JS.number h => Leibniz.eqb h 260
  | JS.undefined => false
  end
  && forallb (fun obj => fresh (Obj.life obj)) (objects s).

(** A non-zero number: what [maxRange] must be for [obj.r / maxRange]. *)
Definition nonzero (v : JS.value) : bool :=
  match v with
  | JS.number x => negb (x =? 0) && negb (is_nan x)
  | JS.undefined => false
  end.

(** The value of a finite float, as a rational. *)
Definition exact (x : float) : Q :=
  match Prim2SF x with
  | S754_finite sign m e =>
      let n := if sign then Zneg m else Zpos m in
      match e with
      | Zneg k => n # (2 ^ k)
      | _ => inject_Z (n * 2 ^ e)
      end
  | _ => 0%Q
  end.

(** ** One render pass, as a function of the state it starts in *)

Definition emit (ops : list ctx_op) (s : State) : State :=
  set_ctx_calls (ctx_calls s ++ ops) s.

Section Frame.

Context {engine : MathLib}.

Definition cx (s : State) : float := JS.ToNumber (width s) / 2.
Definition cy (s : State) : float := JS.ToNumber (height s) - 5.
Definition radius (s : State) : float := JS.ToNumber (height s) - 15.

Definition color (s : State) : string :=
  JS.string_or (JS.element modeColors (currentMode s)) "#0f0".

Definition scanRad (s : State) : float :=
  - JS.ToNumber (scanAngle s) * JS.Math_PI / 180.

(** The path of the sweep line and of the glow wedge behind it. *)
Definition sweep_path (s : State) : list ctx_op :=
  [moveTo (cx s) (cy s);
   lineTo (cx s + radius s * Math_cos (scanRad s))
          (cy s + radius s * Math_sin (scanRad s))].

Definition glow_path (s : State) : list ctx_op :=
  [moveTo (cx s) (cy s);
   arc (cx s) (cy s) (radius s) (scanRad s - 0.1) (scanRad s + 0.02)].

(** Everything [draw] puts on the surface before the detections. *)
Definition backdrop (s : State) : list ctx_op :=
  [fillStyle (Css "#000");
   fillRect 0 0 (JS.ToNumber (width s)) (JS.ToNumber (height s));
   strokeStyle (Css "#222"); lineWidth 1]
  ++ flat_map (fun i =>
       [beginPath; arc (cx s) (cy s) (radius s * (i / 4)) JS.Math_PI 0; stroke])
       [1; 2; 3; 4]
  ++ flat_map (fun deg =>
       [beginPath; moveTo (cx s) (cy s);
        lineTo (cx s + radius s * Math_cos (- deg * JS.Math_PI / 180))
               (cy s + radius s * Math_sin (- deg * JS.Math_PI / 180));
        stroke])
       [30; 60; 90; 120; 150]
  ++ [strokeStyle (Css (color s)); lineWidth 2; beginPath]
  ++ sweep_path s
  ++ [stroke; fillStyle (Css (color s ++ "20")%string); beginPath]
  ++ glow_path s
  ++ [fill].

(** The range rings and the angle lines, as painted. *)
Definition grid (s : State) : list shape :=
  map (fun i =>
         Outline (Css "#222") 1
           (traced [arc (cx s) (cy s) (radius s * (i / 4)) JS.Math_PI 0]))
      [1; 2; 3; 4]
  ++ map (fun deg =>
            Outline (Css "#222") 1
              (traced
                 [moveTo (cx s) (cy s);
                  lineTo (cx s + radius s * Math_cos (- deg * JS.Math_PI / 180))
                         (cy s + radius s * Math_sin (- deg * JS.Math_PI / 180))]))
       [30; 60; 90; 120; 150].

(** The distance from the sweep origin at which a detection is shown. *)
Definition display_distance (s : State) (obj : Obj.t) : float :=
  JS.ToNumber (Obj.r obj) / JS.ToNumber (maxRange s) * radius s.

Definition shown (s : State) (obj : Obj.t) : bool :=
  (0 <? display_distance s obj) && (display_distance s obj <=? radius s).

Definition circle_radius (l : float) : float := 4 + (1 - l) * 4.

Definition circle (s : State) (obj : Obj.t) : ctx_op :=
  let objRad := - JS.ToNumber (Obj.a obj) * JS.Math_PI / 180 in
  arc (cx s + display_distance s obj * Math_cos objRad)
      (cy s + display_distance s obj * Math_sin objRad)
      (circle_radius (Obj.life obj)) 0 (JS.Math_PI * 2).

Definition blip_calls (s : State) (obj : Obj.t) : list ctx_op :=
  if shown s obj
  then [fillStyle (Rgba 255 50 50 (Obj.life obj)); beginPath; circle s obj; fill]
  else [].

Definition warning (s : State) : list ctx_op :=
  if isOffline s
  then [fillStyle (Css "#f00"); font "bold 16px monospace";
        textAlign "center"; fillText "DISCONNECTED" (cx s) (cy s - 40)]
  else [].

Definition frame (s : State) : list ctx_op :=
  backdrop s ++ flat_map (blip_calls s) (tick (objects s)) ++ warning s.

Definition rendered (s : State) : State :=
  set_objects (tick (objects s)) (emit (frame s) s).

Definition blip (s : State) (obj : Obj.t) : shape :=
  Area (Rgba 255 50 50 (Obj.life obj)) (traced [circle s obj]).

(** The state after [k] more render passes. *)
Fixpoint draws (k : nat) (s : State) : State :=
  match k with
  | O => s
  | S k' => state_of (draw (draws k' s))
  end.

End Frame.

(** ** The handlers, as functions of the state they start in *)

(** [updateUI] below the badge: the toggle button and the mode buttons. *)
Definition controls (s : State) : State :=
  set_mode_selected
    (map (fun i => JS.strict_equals (JS.number i) (currentMode s)) [0; 1; 2; 3])
    (set_toggle (if isRunning s then "STOP" else "START") (isRunning s) s).

Definition badge (className textContent : string) (s : State) : State :=
  set_badge_textContent textContent (set_badge_className className s).

(** The view variables after lines 407-411 of the response handler. *)
Definition synced (o : Data.t) (s : State) : State :=
  set_isRunning (JS.strict_equals (Data.running o) (JS.number 1))
    (set_currentMode (JS.or (Data.mode o) (JS.number 0))
       (set_maxRange (JS.or (Data.r o) (JS.number 50))
          (set_scanAngle (Data.a o) (set_isOffline false s)))).

Definition detection (o : Data.t) : Obj.t :=
  {| Obj.a := Data.a o; Obj.r := Data.d o; Obj.life := 1.0 |}.

Definition recorded (o : Data.t) (s : State) : State :=
  if JS.gt (Data.d o) (JS.number 0)
  then set_objects (objects s ++ [detection o]) s
  else s.

Definition noted (o : Data.t) (s : State) : State :=
  if JS.ToBoolean (JS.and (Data.li_a o) (Data.li_d o))
  then set_last_detection (LAST (Data.li_d o) (Data.li_a o)) s
  else s.

Definition stored (o : Data.t) (s : State) : State :=
  noted o (recorded o (synced o s)).

(** One poll up to its render pass: the handler that the response runs,
    without the [draw()] that ends it. *)
Definition reconcile (o : outcome) : M unit :=
  try_catch (data <- response o ;; store_status data ;; updateUI)
            (modify (set_isOffline true) ;; updateUI).

Definition reconciled (o : outcome) (s : State) : State :=
  state_of (reconcile o s).

Definition went_offline (s : State) : State :=
  controls (badge "offline" "OFFLINE" (set_isOffline true s)).

(** ** What a handler leaves alone

    [keeps f m]: running [m] does not change [f] of the state, whether it
    returns or throws. *)

Definition keeps {X A : Type} (f : State -> X) (m : M A) : Prop :=
  forall s, f (state_of (m s)) = f s.

(** A view variable: untouched by writes to the buffer, the context and
    the widgets. *)
Record view {X : Type} (f : State -> X) : Prop := {
  view_ctx_calls : forall v s, f (set_ctx_calls v s) = f s;
  view_objects : forall v s, f (set_objects v s) = f s;
  view_badge_className : forall v s, f (set_badge_className v s) = f s;
  view_badge_textContent : forall v s, f (set_badge_textContent v s) = f s;
  view_toggle : forall v act s, f (set_toggle v act s) = f s;
  view_mode_selected : forall v s, f (set_mode_selected v s) = f s
}.

(** The modes that have a name and a color. *)
Definition recognised (v : JS.value) : bool :=
  match v with
  | JS.number x => (x =? 0) || (x =? 1) || (x =? 2) || (x =? 3)
  | JS.undefined => false
  end.

(** The color assigned to a mode: green, gray, red, magenta, and green
    for anything else. *)
Definition assigned (v : JS.value) : string :=
  match v with
  | JS.number x =>
      if x =? 0 then "#0f0"
      else if x =? 1 then "#666"
      else if x =? 2 then "#f00"
      else if x =? 3 then "#f0f"
      else "#0f0"
  | JS.undefined => "#0f0"
  end.

(** An area filled with a color given as a string: of all the script
    fills, the glow wedge. *)
Definition is_wedge (sh : shape) : bool :=
  match sh with
  | Area (Css _) _ => true
  | _ => false
  end.

Definition is_blip (sh : shape) : bool :=
  match sh with
  | Area (Rgba _ _ _ _) _ => true
  | _ => false
  end.

(** ** Concrete responses *)

(** The scenario of the specification: [{a:90, r:50, mode:0, running:1, d:30}]. *)
Definition sample : Data.t :=
  {| Data.a := JS.number 90; Data.r := JS.number 50; Data.mode := JS.number 0;
     Data.running := JS.number 1; Data.d := JS.number 30;
     Data.li_a := JS.undefined; Data.li_d := JS.undefined |}.

Definition with_r (v : JS.value) (o : Data.t) : Data.t :=
  {| Data.a := Data.a o; Data.r := v; Data.mode := Data.mode o;
     Data.running := Data.running o; Data.d := Data.d o;
     Data.li_a := Data.li_a o; Data.li_d := Data.li_d o |}.

Definition with_mode (v : JS.value) (o : Data.t) : Data.t :=
  {| Data.a := Data.a o; Data.r := Data.r o; Data.mode := v;
     Data.running := Data.running o; Data.d := Data.d o;
     Data.li_a := Data.li_a o; Data.li_d := Data.li_d o |}.

Definition with_d (v : JS.value) (o : Data.t) : Data.t :=
  {| Data.a := Data.a o; Data.r := Data.r o; Data.mode := Data.mode o;
     Data.running := Data.running o; Data.d := v;
     Data.li_a := Data.li_a o; Data.li_d := Data.li_d o |}.

Definition with_li (angle dist : JS.value) (o : Data.t) : Data.t :=
  {| Data.a := Data.a o; Data.r := Data.r o; Data.mode := Data.mode o;
     Data.running := Data.running o; Data.d := Data.d o;
     Data.li_a := angle; Data.li_d := dist |}.

Definition status (o : Data.t) : event := Poll (Resolved (JsonObject o)).

(** A poll that did not deliver a [/status] object. *)
Definition failed (o : outcome) : bool :=
  match o with
  | Resolved (JsonObject _) => false
  | _ => true
  end.

(** ** An engine to run the script on concrete inputs

    Taylor polynomials around 0, enough for the angles of the page; the
    theorems below are proved for every engine. *)

Definition taylor_sin (x : float) : float :=
  let x2 := x * x in
  x * (1 - x2 / 6 * (1 - x2 / 20 * (1 - x2 / 42 * (1 - x2 / 72 *
      (1 - x2 / 110 * (1 - x2 / 156 * (1 - x2 / 210 * (1 - x2 / 272)))))))).

Definition taylor_cos (x : float) : float :=
  let x2 := x * x in
  1 - x2 / 2 * (1 - x2 / 12 * (1 - x2 / 30 * (1 - x2 / 56 *
      (1 - x2 / 90 * (1 - x2 / 132 * (1 - x2 / 182 * (1 - x2 / 240))))))).

Definition taylor_engine : MathLib :=
  {| Math_cos := taylor_cos; Math_sin := taylor_sin |}.

(** ** Runs on concrete inputs *)

(** The context of a canvas that was just created. *)
Definition new_context : pen :=
  {| pen_fillStyle := Css "#000000"; pen_strokeStyle := Css "#000000";
     pen_lineWidth := 1; pen_font := "10px sans-serif";
     pen_textAlign := "start"; pen_path := [] |}.

(** The page on a 400 pixel wide container, after [init]. *)
Definition started : State := @run taylor_engine 400 [].

(** The page after one poll answered by the sample response. *)
Definition tracking : State := @run taylor_engine 400 [status sample].

(** The state in which the render pass runs when the device then reports
    mode 7. *)
Definition mode_seven : State :=
  reconciled (Resolved (JsonObject (with_mode (JS.number 7) sample))) tracking.

(** The state of the render pass when the device then reports 80 cm, with
    the range still at 50 cm. *)
Definition out_of_range : State :=
  reconciled (Resolved (JsonObject (with_d (JS.number 80) sample))) tracking.

Definition near : Obj.t :=
  {| Obj.a := JS.number 90; Obj.r := JS.number 30; Obj.life := life_after 2 |}.
Definition far : Obj.t :=
  {| Obj.a := JS.number 90; Obj.r := JS.number 80; Obj.life := life_after 1 |}.

(** * Notions for the properties beyond the claims *)

(** ** The buffer, by age *)

Fixpoint descending (ks : list nat) : Prop :=
  match ks with
  | [] => True
  | k :: rest => Forall (fun j => (j < k)%nat) rest /\ descending rest
  end.

(** The entries are in the order they were recorded, oldest first, each
    with the [life] of its age in render passes, and no two of one age;
    the ages lie between [lo] and 49. *)
Definition aged (lo : nat) (objs : list Obj.t) : Prop :=
  exists ks,
    map Obj.life objs = map life_after ks /\
    descending ks /\
    Forall (fun k => (lo <= k < 50)%nat) ks.

(** ** The widgets *)

(** The toggle button, the mode buttons and the badge say what the view
    variables hold. *)
Definition mirrors (s : State) : Prop :=
  toggle_textContent s = (if isRunning s then "STOP" else "START") /\
  toggle_active s = isRunning s /\
  mode_selected s
  = map (fun i => JS.strict_equals (JS.number i) (currentMode s)) [0; 1; 2; 3] /\
  if isOffline s
  then badge_className s = "offline" /\ badge_textContent s = "OFFLINE"
  else exists name,
         JS.element modeNames (currentMode s) = Some name /\
         badge_className s = name /\
         badge_textContent s = JS.toUpperCase name.

(** How many buttons carry the class [selected]. *)
Definition chosen (flags : list bool) : nat :=
  List.length (filter (fun b => b) flags).

(** Whether the page is marked offline once the handlers of a poll have
    run. *)
Definition offline_after (o : outcome) : bool :=
  match o with
  | Resolved (JsonObject data) =>
      negb (recognised (JS.or (Data.mode data) (JS.number 0)))
  | _ => true
  end.

Definition is_warning (sh : shape) : bool :=
  match sh with
  | Label _ _ _ _ _ _ => true
  | _ => false
  end.

(** ** A run, by its events *)

(** The last [/status] object delivered. *)
Definition latest_status (evs : list event) : option Data.t :=
  fold_left
    (fun acc ev =>
       match ev with
       | Poll (Resolved (JsonObject o)) => Some o
       | _ => acc
       end) evs None.

(** The footer after the events, from the text it had. *)
Definition footer_after (evs : list event) (text : footer) : footer :=
  fold_left
    (fun acc ev =>
       match ev with
       | Poll (Resolved (JsonObject o)) =>
           if JS.ToBoolean (Data.li_a o) && JS.ToBoolean (Data.li_d o)
           then LAST (Data.li_d o) (Data.li_a o)
           else acc
       | _ => acc
       end) evs text.

(** ** The canvas and the container *)

(** A whole number as a JS number. *)
Definition of_Z (n : Z) : float :=
  SF2Prim (binary_normalize prec emax n 0 false).

Definition whole (x : float) : bool := x =? of_Z (trunc x).

(** A container that leaves the canvas a width: [clientWidth], a whole
    number of pixels, is at least 20. *)
Definition roomy (clientWidth : float) : bool :=
  (0 <=? clientWidth - 20) && whole (clientWidth - 20).

(** The canvas is as wide as [width], a whole number from 0 to 500, and
    260 high. *)
Definition sized (s : State) : Prop :=
  exists w,
    width s = JS.number w /\
    (w =? of_Z (fst (canvas_size s))) = true /\
    (0 <= fst (canvas_size s) <= 500)%Z /\
    snd (canvas_size s) = 260%Z.

Definition fits (ev : event) : bool :=
  match ev with
  | Resize clientWidth => roomy clientWidth
  | Poll _ => true
  end.

(** * The control panel: commands, logs and settings

    Lines 527-613 of the script, over the widgets they touch: the two
    modals, the log text, the four sliders of the settings with their
    labels, the requests sent and the files offered for download. None of
    these functions reads or writes a view variable, the buffer or the
    canvas, and no handler of a poll touches a widget of the panel. *)

Inductive modal : Type :=
| logs
| config.

(** The four settings, by the suffix of their element ids. *)
Module Cfg.
Inductive name : Type :=
| dist
| lock
| min
| max.
End Cfg.

(** The [min], [max] and [step] attributes of the sliders (lines 325-355);
    a slider without a [step] attribute has step 1. *)
Definition lo (n : Cfg.name) : Z :=
  match n with
  | Cfg.dist => 10
  | Cfg.lock => 500
  | Cfg.min => 0
  | Cfg.max => 100
  end.

Definition hi (n : Cfg.name) : Z :=
  match n with
  | Cfg.dist => 200
  | Cfg.lock => 5000
  | Cfg.min => 80
  | Cfg.max => 180
  end.

Definition step (n : Cfg.name) : Z :=
  match n with
  | Cfg.lock => 100
  | _ => 1
  end.

(** A value a slider can hold: between its bounds, on a step from its
    minimum. *)
Definition valid (n : Cfg.name) (z : Z) : bool :=
  (lo n <=? z)%Z && (z <=? hi n)%Z && ((z - lo n) mod step n =? 0)%Z.

(** A range input keeps a valid value whatever is assigned to it; how it
    rounds a value that is not valid, and which value it takes for text
    that is no number, is the browser's. The values exchanged with the
    device are integers or absent, [None] standing for [undefined]. *)
Class RangeInput : Type := {
  sanitize : Cfg.name -> option Z -> Z;
  sanitize_valid : forall n v, valid n (sanitize n v) = true;
  sanitize_keeps : forall n z, valid n z = true -> sanitize n (Some z) = z
}.

(** A request of the command dispatcher: the path and the query of the
    URL given to [fetch]. *)
Record request : Type := {
  path : string;
  query : list (string * Z)
}.

(** What [r.json()] gives for [/get_config]. *)
Inductive config_json : Type :=
| ConfigNull
| ConfigObject (dst lck min max : option Z).

Record Panel : Type := {
  logs_active : bool;
  config_active : bool;
  log_text : string;
  cfg_dist : Z;
  cfg_lock : Z;
  cfg_min : Z;
  cfg_max : Z;
  val_dist : option Z;
  val_lock : option Z;
  val_min : option Z;
  val_max : option Z;
  sent : list request;
  downloads : list (string * string)
}.

(** [document.getElementById('cfg-' + name).value] *)
Definition slider (n : Cfg.name) (p : Panel) : Z :=
  match n with
  | Cfg.dist => cfg_dist p
  | Cfg.lock => cfg_lock p
  | Cfg.min => cfg_min p
  | Cfg.max => cfg_max p
  end.

(** [document.getElementById('val-' + name).textContent] *)
Definition label (n : Cfg.name) (p : Panel) : option Z :=
  match n with
  | Cfg.dist => val_dist p
  | Cfg.lock => val_lock p
  | Cfg.min => val_min p
  | Cfg.max => val_max p
  end.

Definition set_modal (m : modal) (active : bool) (p : Panel) : Panel :=
  {| logs_active := match m with logs => active | config => logs_active p end;
     config_active := match m with config => active | logs => config_active p end;
     log_text := log_text p;
     cfg_dist := cfg_dist p; cfg_lock := cfg_lock p;
     cfg_min := cfg_min p; cfg_max := cfg_max p;
     val_dist := val_dist p; val_lock := val_lock p;
     val_min := val_min p; val_max := val_max p;
     sent := sent p; downloads := downloads p |}.

Definition set_log_text (t : string) (p : Panel) : Panel :=
  {| logs_active := logs_active p; config_active := config_active p;
     log_text := t;
     cfg_dist := cfg_dist p; cfg_lock := cfg_lock p;
     cfg_min := cfg_min p; cfg_max := cfg_max p;
     val_dist := val_dist p; val_lock := val_lock p;
     val_min := val_min p; val_max := val_max p;
     sent := sent p; downloads := downloads p |}.

Definition set_slider (n : Cfg.name) (z : Z) (p : Panel) : Panel :=
  {| logs_active := logs_active p; config_active := config_active p;
     log_text := log_text p;
     cfg_dist := match n with Cfg.dist => z | _ => cfg_dist p end;
     cfg_lock := match n with Cfg.lock => z | _ => cfg_lock p end;
     cfg_min := match n with Cfg.min => z | _ => cfg_min p end;
     cfg_max := match n with Cfg.max => z | _ => cfg_max p end;
     val_dist := val_dist p; val_lock := val_lock p;
     val_min := val_min p; val_max := val_max p;
     sent := sent p; downloads := downloads p |}.

Definition set_label (n : Cfg.name) (v : option Z) (p : Panel) : Panel :=
  {| logs_active := logs_active p; config_active := config_active p;
     log_text := log_text p;
     cfg_dist := cfg_dist p; cfg_lock := cfg_lock p;
     cfg_min := cfg_min p; cfg_max := cfg_max p;
     val_dist := match n with Cfg.dist => v | _ => val_dist p end;
     val_lock := match n with Cfg.lock => v | _ => val_lock p end;
     val_min := match n with Cfg.min => v | _ => val_min p end;
     val_max := match n with Cfg.max => v | _ => val_max p end;
     sent := sent p; downloads := downloads p |}.

(** [fetch(url)], its promise dropped. *)
Definition fetch (r : request) (p : Panel) : Panel :=
  {| logs_active := logs_active p; config_active := config_active p;
     log_text := log_text p;
     cfg_dist := cfg_dist p; cfg_lock := cfg_lock p;
     cfg_min := cfg_min p; cfg_max := cfg_max p;
     val_dist := val_dist p; val_lock := val_lock p;
     val_min := val_min p; val_max := val_max p;
     sent := sent p ++ [r]; downloads := downloads p |}.

(** [a.click()] on a link with the given [download] name and content. *)
Definition download (file content : string) (p : Panel) : Panel :=
  {| logs_active := logs_active p; config_active := config_active p;
     log_text := log_text p;
     cfg_dist := cfg_dist p; cfg_lock := cfg_lock p;
     cfg_min := cfg_min p; cfg_max := cfg_max p;
     val_dist := val_dist p; val_lock := val_lock p;
     val_min := val_min p; val_max := val_max p;
     sent := sent p; downloads := downloads p ++ [(file, content)] |}.

(** A request without a query. *)
Definition plain (url : string) : request := {| path := url; query := [] |}.

Section Controls.

Context {browser : RangeInput}.

(** The panel as served: the labels carry the text of the page, the
    sliders, which have no [value] attribute, what the browser gives
    them. *)
Definition served : Panel :=
  {| logs_active := false; config_active := false;
     log_text := "Loading...";
     cfg_dist := sanitize Cfg.dist None; cfg_lock := sanitize Cfg.lock None;
     cfg_min := sanitize Cfg.min None; cfg_max := sanitize Cfg.max None;
     val_dist := Some 50%Z; val_lock := Some 2000%Z;
     val_min := Some 15%Z; val_max := Some 165%Z;
     sent := []; downloads := [] |}.

Definition toggleScan (p : Panel) : Panel := fetch (plain "/toggle") p.

Definition setMode (mode : Z) (p : Panel) : Panel :=
  fetch {| path := "/mode"; query := [("m", mode)] |} p.

Definition openModal (m : modal) (p : Panel) : Panel :=
  let p := set_modal m true p in
  let p :=
    match m with
    | logs => fetch (plain "/get_logs") (set_log_text "Loading..." p)
    | config => p
    end in
  match m with
  | config => fetch (plain "/get_config") p
  | logs => p
  end.

Definition closeModal (m : modal) (p : Panel) : Panel := set_modal m false p.

Definition exportLogs (p : Panel) : Panel :=
  download "radar_logs.csv" (log_text p) p.

(** [confirmed] is what [confirm(...)] returns. *)
Definition wipeLogs (confirmed : bool) (p : Panel) : Panel :=
  if confirmed
  then set_log_text "[CLEARED]" (fetch (plain "/clear_logs") p)
  else p.

Definition setInput (n : Cfg.name) (value : option Z) (p : Panel) : Panel :=
  set_label n value (set_slider n (sanitize n value) p).

Definition updateVal (n : Cfg.name) (p : Panel) : Panel :=
  set_label n (Some (slider n p)) p.

Definition adjust (n : Cfg.name) (delta : Z) (p : Panel) : Panel :=
  let val := (slider n p + delta)%Z in
  let val := Z.max (lo n) (Z.min (hi n) val) in
  updateVal n (set_slider n (sanitize n (Some val)) p).

Definition saveSettings (p : Panel) : Panel :=
  closeModal config
    (fetch {| path := "/save_config";
              query := [("d", slider Cfg.dist p); ("l", slider Cfg.lock p);
                        ("mn", slider Cfg.min p); ("mx", slider Cfg.max p)] |}
       p).

Definition resetSettings (confirmed : bool) (p : Panel) : Panel :=
  if confirmed
  then closeModal config (fetch (plain "/reset_config") p)
  else p.

(** The handler of the [/get_logs] response. *)
Definition logs_loaded (t : string) (p : Panel) : Panel := set_log_text t p.

(** The handler of the [/get_config] response; reading a field of [null]
    throws before anything is set, and nothing catches it. *)
Definition config_loaded (c : config_json) (p : Panel) : Panel :=
  match c with
  | ConfigNull => p
  | ConfigObject dst lck mn mx =>
      setInput Cfg.max mx
        (setInput Cfg.min mn (setInput Cfg.lock lck (setInput Cfg.dist dst p)))
  end.

(** What the operator and the network do to the panel: a click on a
    button, an answer to a dialog, a slider moved to a value (the browser
    stores it and the [oninput] handler runs [updateVal]), a response. *)
Inductive action : Type :=
| ToggleScan
| SetMode (mode : Z)
| OpenModal (m : modal)
| CloseModal (m : modal)
| ExportLogs
| WipeLogs (confirmed : bool)
| Slide (n : Cfg.name) (z : Z)
| Adjust (n : Cfg.name) (delta : Z)
| SaveSettings
| ResetSettings (confirmed : bool)
| LogsLoaded (t : string)
| ConfigLoaded (c : config_json).

Definition act (p : Panel) (a : action) : Panel :=
  match a with
  | ToggleScan => toggleScan p
  | SetMode mode => setMode mode p
  | OpenModal m => openModal m p
  | CloseModal m => closeModal m p
  | ExportLogs => exportLogs p
  | WipeLogs confirmed => wipeLogs confirmed p
  | Slide n z => updateVal n (set_slider n (sanitize n (Some z)) p)
  | Adjust n delta => adjust n delta p
  | SaveSettings => saveSettings p
  | ResetSettings confirmed => resetSettings confirmed p
  | LogsLoaded t => logs_loaded t p
  | ConfigLoaded c => config_loaded c p
  end.

Definition operate (actions : list action) : Panel :=
  fold_left act actions served.

End Controls.

(** ** Notions for the properties of the panel *)

(** Every label shows the value of its slider. *)
Definition agrees (p : Panel) : Prop :=
  forall n, label n p = Some (slider n p).

(** What a [/get_config] object reports for a setting. *)
Definition reported (n : Cfg.name) (c : config_json) : option Z :=
  match c with
  | ConfigNull => None
  | ConfigObject dst lck mn mx =>
      match n with
      | Cfg.dist => dst
      | Cfg.lock => lck
      | Cfg.min => mn
      | Cfg.max => mx
      end
  end.

(** A value the slider of the setting accepts as it is. *)
Definition accepts (n : Cfg.name) (v : option Z) : bool :=
  match v with
  | Some z => valid n z
  | None => false
  end.

Definition accepted (c : config_json) : bool :=
  match c with
  | ConfigNull => true
  | ConfigObject dst lck mn mx =>
      accepts Cfg.dist dst && accepts Cfg.lock lck
      && accepts Cfg.min mn && accepts Cfg.max mx
  end.

(** An action that is no [/get_config] response with a value the sliders
    would have to change. *)
Definition tame (a : action) : bool :=
  match a with
  | ConfigLoaded c => accepted c
  | _ => true
  end.

(** A request that is no [/save_config], or one that carries four values
    the device's settings allow, the least angle below the greatest. *)
Definition acceptable (r : request) : bool :=
  if String.eqb (path r) "/save_config"
  then match query r with
       | [(kd, d); (kl, l); (kmn, mn); (kmx, mx)] =>
           String.eqb kd "d" && String.eqb kl "l"
           && String.eqb kmn "mn" && String.eqb kmx "mx"
           && valid Cfg.dist d && valid Cfg.lock l
           && valid Cfg.min mn && valid Cfg.max mx && (mn <? mx)%Z
       | _ => false
       end
  else true.

Definition requests_to (url : string) (rs : list request) : nat :=
  List.length (filter (fun r => String.eqb (path r) url) rs).

Definition confirmed_wipes (actions : list action) : nat :=
  List.length
    (filter (fun a => match a with WipeLogs true => true | _ => false end)
       actions).

Definition confirmed_resets (actions : list action) : nat :=
  List.length
    (filter (fun a => match a with ResetSettings true => true | _ => false end)
       actions).

(** ** A browser to run the panel on concrete inputs

    It clamps a number to the bounds of the slider and rounds it to the
    nearest step, the upper one on a tie; a slider that is given no number
    takes the middle of its range, rounded alike. *)
Definition snap (n : Cfg.name) (v : option Z) : Z :=
  let z := match v with
           | Some z => z
           | None => (lo n + (hi n - lo n) / 2)%Z
           end in
  let c := Z.max (lo n) (Z.min (hi n) z) in
  (lo n + (c - lo n + step n / 2) / step n * step n)%Z.

(** The text of the log box after the actions, from the text [t]: the
    last of the writes of [openModal], [wipeLogs] and the [/get_logs]
    handler. *)
Definition text_after (actions : list action) (t : string) : string :=
  fold_left
    (fun t a =>
       match a with
       | OpenModal logs => "Loading..."
       | WipeLogs true => "[CLEARED]"
       | LogsLoaded t' => t'
       | _ => t
       end)
    actions t.

(** The sliders hold valid values and every request sent is acceptable. *)
Definition sound (p : Panel) : Prop :=
  (forall n, valid n (slider n p) = true) /\
  forallb acceptable (sent p) = true.

(** * Proofs *)

(** ** Comparisons of numbers *)

Lemma SFcompare_Lt_swap (x y : spec_float) :
  SFcompare x y = Some Lt -> SFcompare y x = Some Gt.
Proof.
  destruct x as [sx | sx | | sx mx ex], y as [sy | sy | | sy my ey];
    simpl; try discriminate;
    try (destruct sx; discriminate || reflexivity);
    try (destruct sy; discriminate || reflexivity);
    try (destruct sx, sy; discriminate || reflexivity).
  pose proof (Pos.compare_cont_antisym mx my Eq) as A. simpl in A.
  destruct sx, sy; try discriminate; try reflexivity;
    rewrite (Z.compare_antisym ex ey);
    destruct (ex ?= ey)%Z; simpl; try discriminate; try reflexivity;
    rewrite <- A; intros H; injection H as H.
  - destruct (Pos.compare_cont Eq mx my); simpl in *; congruence.
  - rewrite H. reflexivity.
Qed.

(** [x < y] excludes [y <= x]. *)
Lemma ltb_not_leb (x y : float) : (x <? y) = true -> (y <=? x) = false.
Proof.
  rewrite ltb_spec, leb_spec. unfold SFltb, SFleb.
  destruct (SFcompare (Prim2SF x) (Prim2SF y)) as [[ | | ] | ] eqn:E;
    try discriminate.
  intros _. rewrite (SFcompare_Lt_swap _ _ E). reflexivity.
Qed.

Lemma fresh_In (l : float) : fresh l = true <-> In l lives.
Proof.
  unfold fresh. rewrite existsb_exists. split.
  - intros [x [Hx E]]. apply Leibniz.eqb_spec in E. subst. exact Hx.
  - intros H. exists l. split; [exact H | apply Leibniz.eqb_spec; reflexivity].
Qed.

(** A property checked on the fifty lives holds of every fresh one. *)
Lemma fresh_forall (P : float -> bool) :
  forallb P lives = true -> forall l, fresh l = true -> P l = true.
Proof.
  intros H l Hl. rewrite forallb_forall in H. apply H, fresh_In, Hl.
Qed.

Lemma fresh_decay (l : float) :
  fresh l = true -> (0 <? l - 0.02) = true -> fresh (l - 0.02) = true.
Proof.
  intros Hl. revert l Hl.
  assert (H : forallb (fun l => implb (0 <? l - 0.02) (fresh (l - 0.02))) lives
              = true) by (vm_compute; reflexivity).
  intros l Hl Hpos. pose proof (fresh_forall _ H l Hl) as Hi.
  simpl in Hi. rewrite Hpos in Hi. exact Hi.
Qed.

(** The circle of a detection that survived a tick has a radius in
    [4, 8): [arc] does not throw on it. *)
Lemma fresh_radius (l : float) :
  fresh l = true ->
  (4 <=? 4 + (1 - l) * 4) = true /\ (4 + (1 - l) * 4 <? 8) = true /\
  (4 + (1 - l) * 4 <? 0) = false.
Proof.
  intros Hl.
  assert (H : forallb (fun l => (4 <=? 4 + (1 - l) * 4)
                                && (4 + (1 - l) * 4 <? 8)
                                && negb (4 + (1 - l) * 4 <? 0)) lives = true)
    by (vm_compute; reflexivity).
  pose proof (fresh_forall _ H l Hl) as Hi. simpl in Hi.
  apply andb_true_iff in Hi as [Hi H3]. apply andb_true_iff in Hi as [H1 H2].
  apply negb_true_iff in H3. auto.
Qed.

(** ** Running a handler step by step *)

Lemma bind_ok {A B : Type} (m : M A) (k : A -> M B) (s s' : State) (x : A) :
  m s = Ok x s' -> bind m k s = k x s'.
Proof. intros H. unfold bind. rewrite H. reflexivity. Qed.

Lemma bind_throw {A B : Type} (m : M A) (k : A -> M B) (s s' : State) :
  m s = Throw s' -> bind m k s = Throw s'.
Proof. intros H. unfold bind. rewrite H. reflexivity. Qed.

Lemma bind_assoc {A B C : Type} (m : M A) (k : A -> M B) (k' : B -> M C)
    (s : State) :
  bind (bind m k) k' s = bind m (fun x => bind (k x) k') s.
Proof. unfold bind. destruct (m s); reflexivity. Qed.

Lemma bind_ret {A B : Type} (x : A) (k : A -> M B) (s : State) :
  bind (ret x) k s = k x s.
Proof. reflexivity. Qed.

Lemma bind_get {B : Type} (k : State -> M B) (s : State) :
  bind get k s = k s s.
Proof. reflexivity. Qed.

Lemma bind_modify {B : Type} (f : State -> State) (k : unit -> M B)
    (s : State) :
  bind (modify f) k s = k tt (f s).
Proof. reflexivity. Qed.

(** ** Calls on the context *)

Lemma call_ok (op : ctx_op) (s : State) :
  rejects op = false -> call op s = Ok tt (emit [op] s).
Proof. intros H. unfold call. rewrite H. reflexivity. Qed.

(** A call that cannot throw, at the head of a sequence. *)
Ltac call_step := erewrite bind_ok by (apply call_ok; reflexivity).

Lemma emit_emit (a b : list ctx_op) (s : State) :
  emit b (emit a s) = emit (a ++ b) s.
Proof. unfold emit, set_ctx_calls. simpl. rewrite app_assoc. reflexivity. Qed.

Lemma emit_nil (s : State) : emit [] s = s.
Proof. destruct s. unfold emit, set_ctx_calls. simpl. rewrite app_nil_r. reflexivity. Qed.

Lemma emit_set_objects (ops : list ctx_op) (objs : list Obj.t) (s : State) :
  emit ops (set_objects objs s) = set_objects objs (emit ops s).
Proof. reflexivity. Qed.

Lemma set_objects_twice (objs objs' : list Obj.t) (s : State) :
  set_objects objs (set_objects objs' s) = set_objects objs s.
Proof. reflexivity. Qed.

Lemma calls_since_emit (ops : list ctx_op) (s : State) :
  calls_since s (emit ops s) = ops.
Proof.
  unfold calls_since, emit. simpl.
  induction (ctx_calls s) as [ | op l IH]; simpl; [reflexivity | exact IH].
Qed.

Lemma paint_app (p : pen) (a b : list ctx_op) :
  paint p (a ++ b) = paint p a ++ paint (fold_left dip a p) b.
Proof.
  revert p. induction a as [ | op a IH]; intros p; simpl.
  - reflexivity.
  - rewrite IH, app_assoc. reflexivity.
Qed.

(** ** The render pass *)

Section Proofs.

Context {engine : MathLib}.

Lemma settled_height (s : State) :
  settled s = true -> height s = JS.number 260.
Proof.
  unfold settled. intros H. apply andb_true_iff in H as [H _].
  destruct (height s) as [ | h]; [discriminate | ].
  apply Leibniz.eqb_spec in H. subst. reflexivity.
Qed.

Lemma settled_fresh (s : State) (obj : Obj.t) :
  settled s = true -> In obj (objects s) -> fresh (Obj.life obj) = true.
Proof.
  unfold settled. intros H Hin. apply andb_true_iff in H as [_ H].
  rewrite forallb_forall in H. apply H, Hin.
Qed.

Lemma draw_object_ok (s0 s : State) (obj : Obj.t) :
  fresh (Obj.life obj) = true ->
  maxRange s = maxRange s0 ->
  draw_object (cx s0) (cy s0) (radius s0) obj s
  = Ok tt (emit (blip_calls s0 obj) s).
Proof.
  intros Hl Hm.
  destruct (fresh_radius _ Hl) as [_ [_ Hr]].
  unfold draw_object, blip_calls, shown, display_distance.
  rewrite (bind_ok get _ s s s) by reflexivity. rewrite Hm.
  destruct ((0 <? _) && _); unfold when.
  - do 2 call_step.
    erewrite bind_ok by (apply call_ok; simpl; rewrite Hr; reflexivity).
    rewrite call_ok by reflexivity.
    rewrite !emit_emit. reflexivity.
  - rewrite emit_nil. reflexivity.
Qed.

Lemma forEach_draw_object (s0 : State) (objs : list Obj.t) :
  forallb (fun obj => fresh (Obj.life obj)) objs = true ->
  forall s,
    maxRange s = maxRange s0 ->
    forEach objs (draw_object (cx s0) (cy s0) (radius s0)) s
    = Ok tt (emit (flat_map (blip_calls s0) objs) s).
Proof.
  induction objs as [ | obj objs IH]; intros Hf s Hm; simpl.
  - rewrite emit_nil. reflexivity.
  - simpl in Hf. apply andb_true_iff in Hf as [Hl Hf].
    rewrite (bind_ok _ _ _ _ tt (draw_object_ok s0 s obj Hl Hm)).
    rewrite IH by (exact Hf || exact Hm).
    rewrite emit_emit. reflexivity.
Qed.

Lemma tick_fresh (objs : list Obj.t) :
  forallb (fun obj => fresh (Obj.life obj)) objs = true ->
  forallb (fun obj => fresh (Obj.life obj)) (tick objs) = true.
Proof.
  unfold tick. induction objs as [ | obj objs IH]; simpl; intros Hf.
  - reflexivity.
  - apply andb_true_iff in Hf as [Hl Hf].
    unfold alive at 1. simpl.
    destruct (0 <? Obj.life obj - 0.02) eqn:E; simpl.
    + rewrite (fresh_decay _ Hl E). apply IH, Hf.
    + apply IH, Hf.
Qed.

Lemma draw_settled (s : State) :
  settled s = true -> draw s = Ok tt (rendered s).
Proof.
  intros H. pose proof (settled_height s H) as Hh.
  unfold draw.
  call_step. rewrite bind_get. cbv beta zeta.
  cbn [emit set_ctx_calls width height scanAngle currentMode].
  change (JS.ToNumber (width s) / 2) with (cx s).
  change (JS.ToNumber (height s) - 5) with (cy s).
  change (JS.ToNumber (height s) - 15) with (radius s).
  change (JS.string_or (JS.element modeColors (currentMode s)) "#0f0")
    with (color s).
  change (- JS.ToNumber (scanAngle s) * JS.Math_PI / 180) with (scanRad s).
  do 3 call_step.
  cbn [forEach].
  repeat first
    [ rewrite bind_assoc
    | rewrite bind_ret
    | erewrite bind_ok
        by (apply call_ok; try (unfold radius; rewrite Hh); reflexivity) ].
  rewrite !emit_emit. cbn [app].
  match goal with
  | |- _ (emit ?l s) = _ => change l with (backdrop s)
  end.
  do 2 rewrite bind_modify. rewrite bind_get.
  cbn [objects set_objects emit set_ctx_calls].
  change (filter alive (map decay (objects s))) with (tick (objects s)).
  assert (Hf : forallb (fun obj => fresh (Obj.life obj)) (tick (objects s))
               = true).
  { apply tick_fresh. unfold settled in H.
    apply andb_true_iff in H as [_ H]. exact H. }
  erewrite bind_ok by (apply (forEach_draw_object s _ Hf); reflexivity).
  rewrite bind_get. unfold rendered, frame, warning.
  rewrite set_objects_twice, emit_set_objects, emit_emit.
  change (isOffline (set_objects _ (emit _ s))) with (isOffline s).
  destruct (isOffline s); unfold when.
  - do 3 call_step. rewrite call_ok by reflexivity.
    rewrite !emit_set_objects, !emit_emit, <- !app_assoc. reflexivity.
  - unfold ret. rewrite app_nil_r. reflexivity.
Qed.

(** ** The handlers *)

Lemma updateUI_offline (s : State) :
  isOffline s = true ->
  updateUI s = Ok tt (controls (badge "offline" "OFFLINE" s)).
Proof.
  intros H. unfold updateUI. rewrite bind_get, H. reflexivity.
Qed.

Lemma updateUI_known (s : State) (name : string) :
  isOffline s = false ->
  JS.element modeNames (currentMode s) = Some name ->
  updateUI s = Ok tt (controls (badge name (JS.toUpperCase name) s)).
Proof.
  intros H E. unfold updateUI. rewrite bind_get, H, E. reflexivity.
Qed.

Lemma updateUI_unknown (s : State) :
  isOffline s = false ->
  JS.element modeNames (currentMode s) = None ->
  updateUI s = Throw (set_badge_className "undefined" s).
Proof.
  intros H E. unfold updateUI. rewrite bind_get, H, E. reflexivity.
Qed.

Lemma store_status_object (o : Data.t) (s : State) :
  store_status (JsonObject o) s = Ok tt (stored o s).
Proof.
  unfold store_status, stored, noted, recorded, prop.
  repeat first [rewrite bind_modify | rewrite bind_ret].
  destruct (JS.gt (Data.d o) (JS.number 0)); unfold when;
    repeat first [rewrite bind_assoc | rewrite bind_modify | rewrite bind_ret];
    destruct (JS.ToBoolean (JS.and (Data.li_a o) (Data.li_d o)));
    reflexivity.
Qed.

Lemma stored_view (o : Data.t) (s : State) :
  isOffline (stored o s) = false /\
  scanAngle (stored o s) = Data.a o /\
  maxRange (stored o s) = JS.or (Data.r o) (JS.number 50) /\
  currentMode (stored o s) = JS.or (Data.mode o) (JS.number 0) /\
  isRunning (stored o s) = JS.strict_equals (Data.running o) (JS.number 1).
Proof.
  unfold stored, noted, recorded.
  destruct (JS.ToBoolean _), (JS.gt _ _); repeat split; reflexivity.
Qed.

Lemma stored_objects (o : Data.t) (s : State) :
  objects (stored o s)
  = objects s ++ (if JS.gt (Data.d o) (JS.number 0) then [detection o] else []).
Proof.
  unfold stored, noted, recorded.
  destruct (JS.ToBoolean _), (JS.gt _ _); simpl;
    rewrite ?app_nil_r; reflexivity.
Qed.

Lemma stored_page (o : Data.t) (s : State) :
  width (stored o s) = width s /\ height (stored o s) = height s /\
  ctx_calls (stored o s) = ctx_calls s.
Proof.
  unfold stored, noted, recorded.
  destruct (JS.ToBoolean _), (JS.gt _ _); repeat split; reflexivity.
Qed.

Lemma store_status_null (s : State) :
  store_status JsonNull s = Throw (set_isOffline false s).
Proof. reflexivity. Qed.

Lemma offline_handler (s : State) :
  (modify (set_isOffline true) ;; updateUI) s = Ok tt (went_offline s).
Proof. rewrite bind_modify. apply updateUI_offline. reflexivity. Qed.

Lemma reconcile_rejected (o : outcome) (s : State) :
  (forall data, o <> Resolved data) ->
  reconcile o s = Ok tt (went_offline s).
Proof.
  intros H. unfold reconcile, try_catch.
  destruct o; try (exact (offline_handler s)).
  exfalso. exact (H data eq_refl).
Qed.

Lemma reconcile_null (s : State) :
  reconcile (Resolved JsonNull) s = Ok tt (went_offline s).
Proof. reflexivity. Qed.

Lemma reconcile_known (o : Data.t) (s : State) (name : string) :
  JS.element modeNames (JS.or (Data.mode o) (JS.number 0)) = Some name ->
  reconcile (Resolved (JsonObject o)) s
  = Ok tt (controls (badge name (JS.toUpperCase name) (stored o s))).
Proof.
  intros E. unfold reconcile, try_catch, response.
  rewrite bind_ret.
  rewrite (bind_ok _ _ _ _ tt (store_status_object o s)).
  destruct (stored_view o s) as [Hoff [_ [_ [Hmode _]]]].
  rewrite (updateUI_known _ name); [reflexivity | exact Hoff | ].
  rewrite Hmode. exact E.
Qed.

Lemma reconcile_unknown (o : Data.t) (s : State) :
  JS.element modeNames (JS.or (Data.mode o) (JS.number 0)) = None ->
  reconcile (Resolved (JsonObject o)) s
  = Ok tt (went_offline (set_badge_className "undefined" (stored o s))).
Proof.
  intros E. unfold reconcile, try_catch, response.
  rewrite bind_ret.
  rewrite (bind_ok _ _ _ _ tt (store_status_object o s)).
  destruct (stored_view o s) as [Hoff [_ [_ [Hmode _]]]].
  rewrite updateUI_unknown; [ | exact Hoff | rewrite Hmode; exact E].
  apply offline_handler.
Qed.

(** The reconciliation never leaves a rejection behind. *)
Lemma reconcile_total (o : outcome) (s : State) :
  reconcile o s = Ok tt (reconciled o s).
Proof.
  unfold reconciled.
  destruct o as [ | | | [ | o]];
    try (rewrite reconcile_rejected by discriminate; reflexivity).
  - reflexivity.
  - destruct (JS.element modeNames (JS.or (Data.mode o) (JS.number 0)))
      as [name | ] eqn:E.
    + rewrite (reconcile_known o s name E). reflexivity.
    + rewrite (reconcile_unknown o s E). reflexivity.
Qed.

(** It touches neither the canvas nor, beyond appending the detection of
    the response, the buffer. *)
Lemma reconciled_page (o : outcome) (s : State) :
  width (reconciled o s) = width s /\ height (reconciled o s) = height s /\
  ctx_calls (reconciled o s) = ctx_calls s.
Proof.
  unfold reconciled.
  destruct o as [ | | | [ | o]];
    try (rewrite reconcile_rejected by discriminate; repeat split; reflexivity).
  - repeat split; reflexivity.
  - destruct (JS.element modeNames (JS.or (Data.mode o) (JS.number 0)))
      as [name | ] eqn:E.
    + rewrite (reconcile_known o s name E). exact (stored_page o s).
    + rewrite (reconcile_unknown o s E). exact (stored_page o s).
Qed.

Lemma reconciled_objects (o : outcome) (s : State) :
  objects (reconciled o s)
  = match o with
    | Resolved (JsonObject data) => objects (stored data s)
    | _ => objects s
    end.
Proof.
  unfold reconciled.
  destruct o as [ | | | [ | o]];
    try (rewrite reconcile_rejected by discriminate; reflexivity).
  - reflexivity.
  - destruct (JS.element modeNames (JS.or (Data.mode o) (JS.number 0)))
      as [name | ] eqn:E.
    + rewrite (reconcile_known o s name E). reflexivity.
    + rewrite (reconcile_unknown o s E). reflexivity.
Qed.

Lemma reconciled_settled (o : outcome) (s : State) :
  settled s = true -> settled (reconciled o s) = true.
Proof.
  unfold settled. intros H. apply andb_true_iff in H as [Hh Hf].
  destruct (reconciled_page o s) as [_ [E _]]. rewrite E, Hh. simpl.
  rewrite reconciled_objects.
  destruct o as [ | | | [ | o]]; try exact Hf.
  rewrite stored_objects, forallb_app, Hf. simpl.
  destruct (JS.gt _ _); reflexivity.
Qed.

Lemma on_failure_settled (s : State) :
  settled (went_offline s) = true ->
  on_failure s = Ok tt (rendered (went_offline s)).
Proof.
  intros H. unfold on_failure. rewrite bind_modify.
  erewrite bind_ok by (apply updateUI_offline; reflexivity).
  apply draw_settled, H.
Qed.

(** A poll is its reconciliation followed by one render pass. *)
Lemma pollStatus_settled (o : outcome) (s : State) :
  settled s = true ->
  pollStatus o s = Ok tt (rendered (reconciled o s)).
Proof.
  intros H. pose proof (reconciled_settled o s H) as S.
  unfold pollStatus, try_catch.
  destruct o as [ | | | [ | o]].
  1-3: unfold reconciled in *;
    rewrite reconcile_rejected in * by discriminate;
    apply on_failure_settled, S.
  - unfold reconciled in *. rewrite reconcile_null in *.
    apply (on_failure_settled (set_isOffline false s)), S.
  - unfold response. rewrite bind_ret. unfold on_status.
    rewrite (bind_ok _ _ _ _ tt (store_status_object o s)).
    destruct (stored_view o s) as [Hoff [_ [_ [Hmode _]]]].
    unfold reconciled in *.
    destruct (JS.element modeNames (JS.or (Data.mode o) (JS.number 0)))
      as [name | ] eqn:E.
    + rewrite (reconcile_known o s name E) in *.
      erewrite bind_ok
        by (apply (updateUI_known _ name); [exact Hoff | rewrite Hmode; exact E]).
      cbn [state_of] in *. rewrite (draw_settled _ S). reflexivity.
    + rewrite (reconcile_unknown o s E) in *.
      erewrite bind_throw
        by (apply updateUI_unknown; [exact Hoff | rewrite Hmode; exact E]).
      apply on_failure_settled, S.
Qed.

Lemma rendered_settled (s : State) :
  settled s = true -> settled (rendered s) = true.
Proof.
  unfold settled. intros H. apply andb_true_iff in H as [Hh Hf].
  apply andb_true_iff. split; [exact Hh | apply tick_fresh, Hf].
Qed.

Lemma handle_settled (s : State) (ev : event) :
  settled s = true -> settled (handle s ev) = true.
Proof.
  intros H. destruct ev as [o | clientWidth]; simpl.
  - rewrite (pollStatus_settled o s H). simpl.
    apply rendered_settled, reconciled_settled, H.
  - unfold settled in *. apply andb_true_iff in H as [_ Hf]. exact Hf.
Qed.

Lemma init_settled (clientWidth : float) :
  init clientWidth loaded
  = Ok tt (rendered (state_of (resizeCanvas clientWidth loaded))).
Proof.
  unfold init. erewrite bind_ok by reflexivity.
  apply draw_settled. reflexivity.
Qed.

(** Every state the page goes through is settled. *)
Lemma run_settled (clientWidth : float) (evs : list event) :
  settled (run clientWidth evs) = true.
Proof.
  unfold run.
  assert (H : settled (state_of (init clientWidth loaded)) = true).
  { rewrite init_settled. apply rendered_settled. reflexivity. }
  revert H. generalize (state_of (init clientWidth loaded)).
  induction evs as [ | ev evs IH]; intros s H; simpl.
  - exact H.
  - apply IH, handle_settled, H.
Qed.

(** ** What a handler leaves alone *)

Lemma view_scanAngle : view scanAngle.
Proof. constructor; reflexivity. Qed.
Lemma view_maxRange : view maxRange.
Proof. constructor; reflexivity. Qed.
Lemma view_currentMode : view currentMode.
Proof. constructor; reflexivity. Qed.
Lemma view_isRunning : view isRunning.
Proof. constructor; reflexivity. Qed.
Lemma view_isOffline : view isOffline.
Proof. constructor; reflexivity. Qed.
Lemma view_last_detection : view last_detection.
Proof. constructor; reflexivity. Qed.

Lemma keeps_ret {X A : Type} (f : State -> X) (x : A) : keeps f (ret x).
Proof. intros s. reflexivity. Qed.

Lemma keeps_throw {X A : Type} (f : State -> X) : keeps f (@throw A).
Proof. intros s. reflexivity. Qed.

Lemma keeps_bind {X A B : Type} (f : State -> X) (m : M A) (k : A -> M B) :
  keeps f m -> (forall x, keeps f (k x)) -> keeps f (bind m k).
Proof.
  intros Hm Hk s. unfold bind. specialize (Hm s).
  destruct (m s) as [x s' | s']; simpl in Hm.
  - rewrite Hk. exact Hm.
  - exact Hm.
Qed.

Lemma keeps_get {X B : Type} (f : State -> X) (k : State -> M B) :
  (forall x, keeps f (k x)) -> keeps f (bind get k).
Proof. intros Hk s. rewrite bind_get. apply Hk. Qed.

Lemma keeps_when {X : Type} (f : State -> X) (b : bool) (m : M unit) :
  keeps f m -> keeps f (when b m).
Proof. intros H. destruct b; [exact H | apply keeps_ret]. Qed.

Lemma keeps_forEach {X A : Type} (f : State -> X) (l : list A)
    (g : A -> M unit) :
  (forall x, keeps f (g x)) -> keeps f (forEach l g).
Proof.
  intros H. induction l as [ | x l IH]; simpl.
  - apply keeps_ret.
  - apply keeps_bind; [apply H | intros _; exact IH].
Qed.

Lemma keeps_call {X : Type} (f : State -> X) (op : ctx_op) :
  view f -> keeps f (call op).
Proof.
  intros V s. unfold call. destruct (rejects op); simpl.
  - reflexivity.
  - apply (view_ctx_calls f V).
Qed.

Lemma keeps_modify {X : Type} (f : State -> X) (g : State -> State) :
  (forall s, f (g s) = f s) -> keeps f (modify g).
Proof. intros H s. apply H. Qed.

(** One step through the structure of a handler. *)
Ltac keeps_step V :=
  lazymatch goal with
  | |- keeps _ (bind get _) => apply keeps_get; intros ?
  | |- keeps _ (bind _ _) => apply keeps_bind; [ | intros ? ]
  | |- keeps _ (forEach _ _) => apply keeps_forEach; intros ?
  | |- keeps _ (when _ _) => apply keeps_when
  | |- keeps _ (call _) => apply keeps_call; exact V
  | |- keeps _ (ret _) => apply keeps_ret
  | |- keeps _ throw => apply keeps_throw
  | |- keeps _ (modify _) =>
      apply keeps_modify; intros ?;
      first [ apply (view_objects _ V)
            | apply (view_badge_className _ V)
            | apply (view_badge_textContent _ V)
            | apply (view_toggle _ V)
            | apply (view_mode_selected _ V) ]
  | |- keeps _ (if ?b then _ else _) => destruct b
  | |- keeps _ (match ?o with Some _ => _ | None => _ end) => destruct o
  end.

Lemma updateUI_keeps {X : Type} (f : State -> X) : view f -> keeps f updateUI.
Proof. intros V. unfold updateUI. repeat keeps_step V. Qed.

Lemma draw_object_keeps {X : Type} (f : State -> X) (x y r : float)
    (obj : Obj.t) :
  view f -> keeps f (draw_object x y r obj).
Proof. intros V. unfold draw_object. cbv zeta. repeat keeps_step V. Qed.

Lemma draw_keeps {X : Type} (f : State -> X) : view f -> keeps f draw.
Proof.
  intros V. unfold draw. cbv zeta.
  repeat first [ keeps_step V | apply draw_object_keeps; exact V ].
Qed.

Lemma on_failure_keeps {X : Type} (f : State -> X) (s : State) :
  view f -> f (state_of (on_failure s)) = f (set_isOffline true s).
Proof.
  intros V. unfold on_failure. rewrite bind_modify.
  apply (keeps_bind f updateUI (fun _ => draw)).
  - apply updateUI_keeps, V.
  - intros _. apply draw_keeps, V.
Qed.

(** ** The claims *)

(** A poll that delivers an object leaves in a view variable what
    [store_status] put there. *)
Lemma delivered_keeps {X : Type} (f : State -> X) (o : Data.t) (s : State) :
  view f -> (forall b s, f (set_isOffline b s) = f s) ->
  f (state_of (pollStatus (Resolved (JsonObject o)) s)) = f (stored o s).
Proof.
  intros V Hoff. unfold pollStatus, try_catch, response.
  rewrite bind_ret. unfold on_status.
  rewrite (bind_ok _ _ _ _ tt (store_status_object o s)).
  pose proof (keeps_bind f updateUI (fun _ => draw) (updateUI_keeps f V)
                (fun _ => draw_keeps f V) (stored o s)) as K.
  destruct ((updateUI ;; draw) (stored o s)) as [x s' | s']; simpl in K.
  - exact K.
  - rewrite (on_failure_keeps f s' V), Hoff. exact K.
Qed.

Lemma failed_keeps {X : Type} (f : State -> X) (o : outcome) (s : State) :
  view f -> failed o = true ->
  f (state_of (pollStatus o s)) = f (set_isOffline true s).
Proof.
  intros V F. destruct o as [ | | | [ | o]]; try discriminate;
    exact (on_failure_keeps f _ V).
Qed.

(** C1, as the code has it: a successful poll always overwrites
    [maxRange], with [r] when the response supplies a non-zero [r] and
    with the default 50 when [r] is omitted or 0. *)
Theorem maxRange_after_status (o : Data.t) (s : State) :
  maxRange (state_of (pollStatus (Resolved (JsonObject o)) s))
  = match Data.r o with
    | JS.number x =>
        if (x =? 0) || is_nan x then JS.number 50 else JS.number x
    | JS.undefined => JS.number 50
    end.
Proof.
  rewrite (delivered_keeps maxRange o s view_maxRange) by reflexivity.
  destruct (stored_view o s) as [_ [_ [E _]]]. rewrite E.
  unfold JS.or, JS.ToBoolean.
  destruct (Data.r o) as [ | x]; [reflexivity | ].
  destruct ((x =? 0) || is_nan x); reflexivity.
Qed.

(** C2: a failed poll sets [isOffline] and leaves [scanAngle],
    [currentMode], [isRunning], [maxRange] and the last detection shown
    as they were. *)
Theorem failed_poll_keeps_view (o : outcome) (s : State) :
  failed o = true ->
  isOffline (state_of (pollStatus o s)) = true /\
  scanAngle (state_of (pollStatus o s)) = scanAngle s /\
  currentMode (state_of (pollStatus o s)) = currentMode s /\
  isRunning (state_of (pollStatus o s)) = isRunning s /\
  maxRange (state_of (pollStatus o s)) = maxRange s /\
  last_detection (state_of (pollStatus o s)) = last_detection s.
Proof.
  intros F.
  rewrite (failed_keeps isOffline o s view_isOffline F).
  rewrite (failed_keeps scanAngle o s view_scanAngle F).
  rewrite (failed_keeps currentMode o s view_currentMode F).
  rewrite (failed_keeps isRunning o s view_isRunning F).
  rewrite (failed_keeps maxRange o s view_maxRange F).
  rewrite (failed_keeps last_detection o s view_last_detection F).
  repeat split; reflexivity.
Qed.

(** What the footer shows after a successful poll: the pair of the
    response when [li_a] and [li_d] are both truthy, and what it showed
    before otherwise. *)
Lemma last_detection_after_status (o : Data.t) (s : State) :
  last_detection (state_of (pollStatus (Resolved (JsonObject o)) s))
  = if JS.ToBoolean (Data.li_a o) && JS.ToBoolean (Data.li_d o)
    then LAST (Data.li_d o) (Data.li_a o)
    else last_detection s.
Proof.
  rewrite (delivered_keeps last_detection o s view_last_detection)
    by reflexivity.
  unfold stored, noted, recorded, JS.and.
  destruct (JS.ToBoolean (Data.li_a o)) eqn:Ea; simpl; rewrite ?Ea;
    destruct (JS.ToBoolean (Data.li_d o)), (JS.gt _ _); reflexivity.
Qed.

(** C3, on the code: a last intrusion reported at angle 0 is not shown,
    whatever its distance; the footer keeps its text. *)
Theorem intrusion_at_angle_zero_dropped (o : Data.t) (dist : float)
    (s : State) :
  last_detection
    (state_of (pollStatus
       (Resolved (JsonObject (with_li (JS.number 0) (JS.number dist) o))) s))
  = last_detection s.
Proof. rewrite last_detection_after_status. reflexivity. Qed.

(** C4: the response handler appends one detection with [life] 1 and the
    angle and distance of the response when [d > 0], and nothing
    otherwise; the render pass that ends the same handler then ages the
    buffer once. *)
Theorem status_records_detection (o : Data.t) :
  (forall s,
     store_status (JsonObject o) s = Ok tt (stored o s) /\
     objects (stored o s)
     = objects s
       ++ match Data.d o with
          | JS.number x =>
              if 0 <? x
              then [{| Obj.a := Data.a o; Obj.r := JS.number x;
                       Obj.life := 1 |}]
              else []
          | JS.undefined => []
          end) /\
  (forall clientWidth evs,
     objects (handle (run clientWidth evs) (status o))
     = tick (objects (stored o (run clientWidth evs)))) /\
  (0 <? 0) = false.
Proof.
  split; [ | split; [ | reflexivity]].
  - intros s. split; [apply store_status_object | ].
    rewrite stored_objects. unfold JS.gt, detection.
    destruct (Data.d o) as [ | x]; simpl; [reflexivity | ].
    destruct (0 <? x); reflexivity.
  - intros clientWidth evs. simpl.
    rewrite (pollStatus_settled _ _ (run_settled clientWidth evs)). simpl.
    rewrite reconciled_objects. reflexivity.
Qed.

(** The lives along the way are positive up to the 49th tick and not
    after the 50th. *)
Lemma life_after_positive (k : nat) :
  (k < 50)%nat -> (0 <? life_after (S k)) = (S k <? 50)%nat.
Proof.
  intros H.
  assert (T : forallb (fun k => Bool.eqb (0 <? life_after (S k))
                                         (S k <? 50)%nat) (seq 0 50) = true)
    by (vm_compute; reflexivity).
  rewrite forallb_forall in T. apply eqb_prop, T, in_seq. lia.
Qed.

Lemma life_after_exact (k : nat) :
  (k <= 50)%nat ->
  (Qabs (exact (life_after k) - (1 - (Z.of_nat k # 50))) <= 1 # 2 ^ 50)%Q.
Proof.
  intros H.
  assert (T : forallb (fun k =>
                Qle_bool (Qabs (exact (life_after k) - (1 - (Z.of_nat k # 50))))
                         (1 # 2 ^ 50)) (seq 0 51) = true)
    by (vm_compute; reflexivity).
  rewrite forallb_forall in T. apply Qle_bool_iff, T, in_seq. lia.
Qed.

Lemma tick_app (a b : list Obj.t) : tick (a ++ b) = tick a ++ tick b.
Proof. unfold tick. rewrite map_app, filter_app. reflexivity. Qed.

Lemma iter_tick_app (k : nat) (a b : list Obj.t) :
  Nat.iter k tick (a ++ b) = Nat.iter k tick a ++ Nat.iter k tick b.
Proof.
  induction k as [ | k IH]; [reflexivity | ].
  simpl. rewrite IH. apply tick_app.
Qed.

Lemma tick_one (a r : JS.value) (l : float) :
  tick [{| Obj.a := a; Obj.r := r; Obj.life := l |}]
  = if 0 <? l - 0.02
    then [{| Obj.a := a; Obj.r := r; Obj.life := l - 0.02 |}]
    else [].
Proof.
  unfold tick, alive, decay. simpl. destruct (0 <? l - 0.02); reflexivity.
Qed.

(** An entry that has been through [j] passes, [k] passes later. *)
Lemma iter_tick_one (a r : JS.value) (j k : nat) :
  (j < 50)%nat ->
  Nat.iter k tick [{| Obj.a := a; Obj.r := r; Obj.life := life_after j |}]
  = if (j + k <? 50)%nat
    then [{| Obj.a := a; Obj.r := r; Obj.life := life_after (j + k) |}]
    else [].
Proof.
  intros Hj. induction k as [ | k IH].
  - rewrite Nat.add_0_r. simpl.
    apply Nat.ltb_lt in Hj. rewrite Hj. reflexivity.
  - simpl Nat.iter. rewrite IH.
    replace (j + S k)%nat with (S (j + k)) by lia.
    destruct (j + k <? 50)%nat eqn:E.
    + rewrite tick_one. apply Nat.ltb_lt in E.
      change (life_after (j + k) - 0.02) with (life_after (S (j + k))).
      rewrite (life_after_positive (j + k) E). reflexivity.
    + apply Nat.ltb_ge in E.
      destruct (S (j + k) <? 50)%nat eqn:E'; [ | reflexivity].
      apply Nat.ltb_lt in E'. lia.
Qed.

(** Fifty passes empty a buffer of entries on their way down from 1. *)
Lemma iter_tick_fresh (objs : list Obj.t) :
  forallb (fun obj => fresh (Obj.life obj)) objs = true ->
  Nat.iter 50 tick objs = [].
Proof.
  induction objs as [ | [a r l] objs IH]; intros F.
  - vm_compute. reflexivity.
  - cbn [forallb Obj.life] in F. apply andb_true_iff in F as [Fl F].
    change ({| Obj.a := a; Obj.r := r; Obj.life := l |} :: objs)
      with ([{| Obj.a := a; Obj.r := r; Obj.life := l |}] ++ objs).
    rewrite iter_tick_app, (IH F), app_nil_r.
    apply fresh_In in Fl. unfold lives in Fl. apply in_map_iff in Fl.
    destruct Fl as [j [E Hj]]. apply in_seq in Hj. subst l.
    rewrite (iter_tick_one a r j 50) by lia.
    replace (j + 50 <? 50)%nat with false; [reflexivity | ].
    symmetry. apply Nat.ltb_ge. lia.
Qed.

Lemma draws_settled (k : nat) (s : State) :
  settled s = true -> settled (draws k s) = true.
Proof.
  intros H. induction k as [ | k IH]; [exact H | ].
  simpl. rewrite (draw_settled _ IH). apply rendered_settled, IH.
Qed.

Lemma draws_objects (k : nat) (s : State) :
  settled s = true -> objects (draws k s) = Nat.iter k tick (objects s).
Proof.
  intros H. induction k as [ | k IH]; [reflexivity | ].
  simpl. rewrite (draw_settled _ (draws_settled k s H)).
  cbn [state_of]. unfold rendered. cbn [objects set_objects].
  rewrite <- IH. reflexivity.
Qed.

(** C5: in a state of the page whose buffer ends with an entry just
    recorded, at [life] 1, every further call of [draw] returns, takes
    0.02 off the [life] of the entry and keeps it while what is left is
    positive: the entry is in the buffer, behind what is left of the
    older ones, after each of the first 49 calls, and gone from the 50th
    on, so after the 51st; with it the buffer is empty. Its [life] after
    [k] calls is 1 - k/50 up to the rounding of binary64, less than
    2^-50. *)
Theorem detection_fades (s : State) (older : list Obj.t) (a r : JS.value) :
  settled s = true ->
  objects s = older ++ [{| Obj.a := a; Obj.r := r; Obj.life := 1 |}] ->
  (forall k, draw (draws k s) = Ok tt (draws (S k) s)) /\
  (forall k,
     objects (draws k s)
     = Nat.iter k tick older
       ++ if (k <? 50)%nat
          then [{| Obj.a := a; Obj.r := r; Obj.life := life_after k |}]
          else []) /\
  (forall k, life_after (S k) = life_after k - 0.02) /\
  In {| Obj.a := a; Obj.r := r; Obj.life := life_after 49 |}
     (objects (draws 49 s)) /\
  (0 <? life_after 49) = true /\
  (life_after 49 - 0.02 <=? 0) = true /\
  objects (draws 50 s) = [] /\
  objects (draws 51 s) = [] /\
  (forall k, (k <= 50)%nat ->
     (Qabs (exact (life_after k) - (1 - (Z.of_nat k # 50))) <= 1 # 2 ^ 50)%Q).
Proof.
  intros H E.
  assert (All : forall k,
     objects (draws k s)
     = Nat.iter k tick older
       ++ if (k <? 50)%nat
          then [{| Obj.a := a; Obj.r := r; Obj.life := life_after k |}]
          else []).
  { intros k. rewrite (draws_objects k s H), E, iter_tick_app.
    pose proof (iter_tick_one a r 0 k) as I.
    change (life_after 0) with 1 in I. cbn [Nat.add] in I.
    rewrite I by lia. reflexivity. }
  assert (F : forallb (fun obj => fresh (Obj.life obj)) older = true).
  { unfold settled in H. apply andb_true_iff in H as [_ H].
    rewrite E, forallb_app in H. apply andb_true_iff in H as [H _]. exact H. }
  assert (Gone : forall k, (50 <= k)%nat -> objects (draws k s) = []).
  { intros k Hk. rewrite All.
    replace (k <? 50)%nat with false by (symmetry; apply Nat.ltb_ge; exact Hk).
    rewrite app_nil_r.
    replace k with ((k - 50) + 50)%nat by lia.
    rewrite Nat.iter_add, (iter_tick_fresh older F).
    clear. induction (k - 50)%nat as [ | n IH]; [reflexivity | ].
    simpl. rewrite IH. reflexivity. }
  split.
  { intros k. cbn [draws].
    rewrite (draw_settled _ (draws_settled k s H)). reflexivity. }
  split; [exact All | ].
  split; [reflexivity | ].
  split; [rewrite All; apply in_or_app; right; left; reflexivity | ].
  split; [reflexivity | ].
  split; [reflexivity | ].
  split; [apply Gone; lia | ].
  split; [apply Gone; lia | exact life_after_exact].
Qed.

Lemma color_assigned (s : State) : color s = assigned (currentMode s).
Proof.
  unfold color, assigned. destruct (currentMode s) as [ | x]; [reflexivity | ].
  simpl. destruct (x =? 0); [reflexivity | ].
  destruct (x =? 1); [reflexivity | ].
  destruct (x =? 2); [reflexivity | ].
  destruct (x =? 3); reflexivity.
Qed.

(** Each color of a mode is one the context reads; with [20] appended it
    has five digits, and is none. *)
Lemma assigned_parses (v : JS.value) :
  parses (Css (assigned v)) = true /\
  parses (Css (assigned v ++ "20")%string) = false.
Proof.
  unfold assigned. destruct v as [ | x]; [split; reflexivity | ].
  destruct (x =? 0); [split; reflexivity | ].
  destruct (x =? 1); [split; reflexivity | ].
  destruct (x =? 2); [split; reflexivity | ].
  destruct (x =? 3); split; reflexivity.
Qed.

Lemma fresh_finite (l : float) : fresh l = true -> is_finite l = true.
Proof.
  apply (fresh_forall is_finite). vm_compute. reflexivity.
Qed.

Lemma calls_since_rendered (s : State) :
  calls_since s (rendered s) = frame s.
Proof. exact (calls_since_emit (frame s) s). Qed.

Lemma traced_two (a b : ctx_op) : traced [a] ++ traced [b] = traced [a; b].
Proof. unfold traced. simpl. destruct (takes a); reflexivity. Qed.

(** What the backdrop paints, whatever the context held before: the glow
    wedge is filled with the style of the surface, the one assigned for
    it being no color. *)
Lemma paint_backdrop (p : pen) (s : State) :
  paint p (backdrop s)
  = Rect (Css "#000") 0 0 (JS.ToNumber (width s)) (JS.ToNumber (height s))
    :: grid s
    ++ [Outline (Css (color s)) 2 (traced (sweep_path s));
        Area (Css "#000") (traced (glow_path s))]
  /\ fold_left dip (backdrop s) p
     = {| pen_fillStyle := Css "#000"; pen_strokeStyle := Css (color s);
          pen_lineWidth := 2; pen_font := pen_font p;
          pen_textAlign := pen_textAlign p;
          pen_path := traced (glow_path s) |}.
Proof.
  destruct (assigned_parses (currentMode s)) as [A B].
  rewrite <- color_assigned in A, B. cbn [parses] in A, B.
  unfold backdrop, grid, sweep_path, glow_path.
  cbn -[traced cx cy radius color scanRad hex_color].
  rewrite A, B, !traced_two. split; reflexivity.
Qed.

Lemma grid_shapes (s : State) :
  filter is_blip (grid s) = [] /\ filter is_wedge (grid s) = [] /\
  List.length (grid s) = 9%nat.
Proof. repeat split. Qed.

Lemma paint_blips (s : State) (objs : list Obj.t) (p : pen) :
  forallb (fun obj => fresh (Obj.life obj)) objs = true ->
  paint p (flat_map (blip_calls s) objs)
  = map (blip s) (filter (shown s) objs).
Proof.
  revert p. induction objs as [ | obj objs IH]; intros p F; simpl.
  - reflexivity.
  - cbn [forallb] in F. apply andb_true_iff in F as [Fl F].
    rewrite paint_app, (IH _ F). unfold blip_calls, blip.
    destruct (shown s obj); [ | reflexivity].
    cbn -[traced]. rewrite (fresh_finite _ Fl). reflexivity.
Qed.

Lemma filter_blips (s : State) (objs : list Obj.t) :
  filter is_blip (map (blip s) objs) = map (blip s) objs.
Proof.
  induction objs as [ | obj objs IH]; simpl; [reflexivity | ].
  rewrite IH. reflexivity.
Qed.

Lemma wedge_blips (s : State) (objs : list Obj.t) :
  filter is_wedge (map (blip s) objs) = [].
Proof. induction objs as [ | obj objs IH]; simpl; [reflexivity | exact IH]. Qed.

Lemma paint_warning (s : State) (p : pen) :
  filter is_blip (paint p (warning s)) = [] /\
  filter is_wedge (paint p (warning s)) = [].
Proof. unfold warning. destruct (isOffline s); split; reflexivity. Qed.

Lemma settled_tick_fresh (s : State) :
  settled s = true ->
  forallb (fun obj => fresh (Obj.life obj)) (tick (objects s)) = true.
Proof.
  unfold settled. intros H. apply andb_true_iff in H as [_ H].
  apply tick_fresh, H.
Qed.

(** C6: a render pass returns, and it strokes the sweep line in the color
    assigned to the current mode, which is green for every mode outside
    0-3. The glow wedge is not in that color: the style assigned for it,
    the color with [20] appended, has five digits and is no color, so the
    context keeps the [#000] the pass cleared the surface with, and the
    wedge, the only area of the pass that is not the circle of a
    detection, is filled with it. *)
Theorem draw_uses_mode_color (s : State) (p : pen) :
  settled s = true ->
  exists s',
    draw s = Ok tt s' /\
    In (Outline (Css (assigned (currentMode s))) 2 (traced (sweep_path s)))
       (paint p (calls_since s s')) /\
    In (fillStyle (Css (assigned (currentMode s) ++ "20")%string))
       (calls_since s s') /\
    parses (Css (assigned (currentMode s) ++ "20")%string) = false /\
    filter is_wedge (paint p (calls_since s s'))
    = [Area (Css "#000") (traced (glow_path s))] /\
    Css "#000" <> Css (assigned (currentMode s)) /\
    (recognised (currentMode s) = false ->
     assigned (currentMode s) = "#0f0") /\
    map assigned [JS.number 0; JS.number 1; JS.number 2; JS.number 3]
    = ["#0f0"; "#666"; "#f00"; "#f0f"].
Proof.
  intros H. exists (rendered s). split; [apply draw_settled, H | ].
  rewrite calls_since_rendered. unfold frame. rewrite !paint_app.
  destruct (paint_backdrop p s) as [E _]. rewrite E.
  rewrite (paint_blips s _ _ (settled_tick_fresh s H)).
  rewrite <- color_assigned.
  split; [ | split; [ | split; [ | split; [ | split; [ | split]]]]].
  - apply in_or_app. left. right. apply in_or_app. right. left. reflexivity.
  - apply in_or_app. left. unfold backdrop.
    do 5 (apply in_or_app; right). apply in_or_app. left.
    right. left. reflexivity.
  - rewrite color_assigned. apply assigned_parses.
  - rewrite !filter_app. cbn [filter is_wedge].
    destruct (grid_shapes s) as [_ [G _]]. rewrite filter_app, G.
    rewrite wedge_blips. destruct (paint_warning s
      (fold_left dip (flat_map (blip_calls s) (tick (objects s)))
         (fold_left dip (backdrop s) p))) as [_ W].
    rewrite W. reflexivity.
  - rewrite color_assigned. unfold assigned.
    destruct (currentMode s) as [ | x]; [discriminate | ].
    destruct (x =? 0), (x =? 1), (x =? 2), (x =? 3); discriminate.
  - rewrite color_assigned. unfold recognised, assigned.
    destruct (currentMode s) as [ | x]; [reflexivity | ].
    destruct (x =? 0), (x =? 1), (x =? 2), (x =? 3);
      simpl; intros; try discriminate; reflexivity.
  - reflexivity.
Qed.

(** C7: after the tick of a render pass, the circles painted are exactly
    those of the detections whose display distance is positive and at
    most the display radius, each with alpha [life] and a radius
    [4 + (1 - life) * 4], which is 4 at [life] 1, grows with every tick and
    stays below 8. A detection whose display distance exceeds the radius
    is not among them, and nothing else is painted for it: the pass paints
    the twelve shapes of the backdrop, one circle per detection shown, and
    the warning when offline. The path of a circle is its arc, which the
    context takes whenever its centre is finite. *)
Theorem draw_detections (s : State) (p : pen) :
  settled s = true ->
  exists s',
    draw s = Ok tt s' /\
    objects s' = tick (objects s) /\
    filter is_blip (paint p (calls_since s s'))
    = map (fun obj =>
             Area (Rgba 255 50 50 (Obj.life obj)) (traced [circle s obj]))
          (filter (shown s) (objects s')) /\
    (forall obj, takes (circle s obj) = true ->
       traced [circle s obj] = [circle s obj]) /\
    List.length (paint p (calls_since s s'))
    = (12 + List.length (filter (shown s) (objects s'))
       + (if isOffline s then 1 else 0))%nat /\
    (forall obj,
       (radius s <? display_distance s obj) = true -> shown s obj = false) /\
    (forall obj, In obj (objects s') ->
       (4 <=? circle_radius (Obj.life obj)) = true /\
       (circle_radius (Obj.life obj) <? 8) = true) /\
    circle_radius 1 = 4 /\
    forallb (fun k => circle_radius (life_after k)
                      <? circle_radius (life_after (S k))) (seq 0 49) = true.
Proof.
  intros H. exists (rendered s). split; [apply draw_settled, H | ].
  split; [reflexivity | ].
  pose proof (settled_tick_fresh s H) as F.
  split; [ | split; [ | split; [ | split; [ | split; [ | split]]]]].
  - rewrite calls_since_rendered. unfold frame.
    rewrite paint_app, paint_app, !filter_app.
    destruct (paint_backdrop p s) as [E _]. rewrite E.
    destruct (paint_warning s
      (fold_left dip (flat_map (blip_calls s) (tick (objects s)))
         (fold_left dip (backdrop s) p))) as [W _].
    rewrite W, (paint_blips s _ _ F), app_nil_r.
    change (map _ (filter (shown s) (objects (rendered s))))
      with (map (blip s) (filter (shown s) (tick (objects s)))).
    rewrite (filter_blips s). cbn [filter is_blip]. rewrite filter_app.
    destruct (grid_shapes s) as [B _]. rewrite B. reflexivity.
  - intros obj T. unfold traced. cbn [filter]. rewrite T. reflexivity.
  - rewrite calls_since_rendered. unfold frame.
    rewrite paint_app, paint_app, !length_app.
    destruct (paint_backdrop p s) as [E _]. rewrite E.
    rewrite (paint_blips s _ _ F), length_map. cbn [List.length].
    rewrite length_app. destruct (grid_shapes s) as [_ [_ L]]. rewrite L.
    change (objects (rendered s)) with (tick (objects s)).
    unfold warning. destruct (isOffline s); simpl; lia.
  - intros obj L. unfold shown. rewrite (ltb_not_leb _ _ L).
    apply andb_false_r.
  - intros obj Hin.
    assert (Fo : fresh (Obj.life obj) = true).
    { apply (settled_fresh (rendered s)); [ | exact Hin].
      apply rendered_settled, H. }
    destruct (fresh_radius _ Fo) as [A [B _]]. split; assumption.
  - reflexivity.
  - vm_compute. reflexivity.
Qed.

Lemma or_default_nonzero (v : JS.value) (x : float) :
  nonzero (JS.number x) = true -> nonzero (JS.or v (JS.number x)) = true.
Proof.
  intros H. unfold JS.or. destruct (JS.ToBoolean v) eqn:E; [ | exact H].
  destruct v as [ | y]; [discriminate | ].
  simpl in *. apply negb_true_iff, orb_false_iff in E as [E1 E2].
  rewrite E1. unfold is_nan in *. rewrite E2. reflexivity.
Qed.

Lemma reconciled_maxRange (o : outcome) (s : State) :
  maxRange (reconciled o s)
  = match o with
    | Resolved (JsonObject data) => JS.or (Data.r data) (JS.number 50)
    | _ => maxRange s
    end.
Proof.
  unfold reconciled.
  destruct o as [ | | | [ | o]];
    try (rewrite reconcile_rejected by discriminate; reflexivity).
  - reflexivity.
  - destruct (stored_view o s) as [_ [_ [E _]]].
    destruct (JS.element modeNames (JS.or (Data.mode o) (JS.number 0)))
      as [name | ] eqn:N.
    + rewrite (reconcile_known o s name N). exact E.
    + rewrite (reconcile_unknown o s N). exact E.
Qed.

Lemma reconciled_nonzero (o : outcome) (s : State) :
  nonzero (maxRange s) = true -> nonzero (maxRange (reconciled o s)) = true.
Proof.
  intros H. rewrite reconciled_maxRange.
  destruct o as [ | | | [ | o]]; try exact H.
  apply or_default_nonzero. reflexivity.
Qed.

(** The render pass of a poll runs in the reconciled state. *)
Lemma pollStatus_draw (o : outcome) (s : State) :
  settled s = true -> pollStatus o s = draw (reconciled o s).
Proof.
  intros H. rewrite (pollStatus_settled o s H).
  symmetry. apply draw_settled, reconciled_settled, H.
Qed.

Lemma run_snoc (clientWidth : float) (evs : list event) (ev : event) :
  run clientWidth (evs ++ [ev]) = handle (run clientWidth evs) ev.
Proof. unfold run. rewrite fold_left_app. reflexivity. Qed.

Lemma run_nonzero (clientWidth : float) (evs : list event) :
  nonzero (maxRange (run clientWidth evs)) = true.
Proof.
  induction evs as [ | ev evs IH] using rev_ind.
  - unfold run. cbn [fold_left]. rewrite init_settled. reflexivity.
  - rewrite run_snoc. destruct ev as [o | w]; simpl.
    + rewrite (pollStatus_settled o _ (run_settled clientWidth evs)).
      apply (reconciled_nonzero o _ IH).
    + exact IH.
Qed.

(** C8: [maxRange] is a non-zero number in every state of the page and in
    every state in which [draw] runs: at [init] it is 50, and the response
    handler stores 50 in place of an [r] that is 0 or missing before its
    render pass. *)
Theorem maxRange_never_zero (clientWidth : float) (evs : list event) :
  nonzero (maxRange (run clientWidth evs)) = true /\
  (init clientWidth loaded = draw (state_of (resizeCanvas clientWidth loaded))
   /\ maxRange (state_of (resizeCanvas clientWidth loaded)) = JS.number 50) /\
  (forall o,
     pollStatus o (run clientWidth evs)
     = draw (reconciled o (run clientWidth evs)) /\
     nonzero (maxRange (reconciled o (run clientWidth evs))) = true) /\
  (forall o,
     maxRange (reconciled (Resolved (JsonObject o)) (run clientWidth evs))
     = match Data.r o with
       | JS.number x =>
           if (x =? 0) || is_nan x then JS.number 50 else JS.number x
       | JS.undefined => JS.number 50
       end).
Proof.
  split; [apply run_nonzero | ].
  split; [split; reflexivity | ].
  split.
  - intros o. split.
    + apply pollStatus_draw, run_settled.
    + apply reconciled_nonzero, run_nonzero.
  - intros o. rewrite reconciled_maxRange.
    unfold JS.or, JS.ToBoolean.
    destruct (Data.r o) as [ | x]; [reflexivity | ].
    destruct ((x =? 0) || is_nan x); reflexivity.
Qed.

Lemma passes_app (a b : list ctx_op) :
  passes (a ++ b) = (passes a + passes b)%nat.
Proof. unfold passes. rewrite filter_app. apply length_app. Qed.

Lemma passes_blips (s : State) (objs : list Obj.t) :
  passes (flat_map (blip_calls s) objs) = 0%nat.
Proof.
  induction objs as [ | obj objs IH]; simpl; [reflexivity | ].
  rewrite passes_app, IH. unfold blip_calls.
  destruct (shown s obj); reflexivity.
Qed.

Lemma passes_frame (s : State) : passes (frame s) = 1%nat.
Proof.
  unfold frame. rewrite !passes_app, passes_blips.
  unfold warning. destruct (isOffline s); reflexivity.
Qed.

Lemma passes_rendered (s0 s : State) :
  ctx_calls s = ctx_calls s0 -> passes (calls_since s0 (rendered s)) = 1%nat.
Proof.
  intros E. unfold calls_since. rewrite <- E.
  exact (eq_trans (f_equal passes (calls_since_rendered s)) (passes_frame s)).
Qed.

(** C9: every poll, however its request settles, runs [draw] once, in
    the reconciled state; that pass clears the surface once and ticks the
    buffer once, taking 0.02 off every [life] and dropping what is not
    positive. After a failed poll the buffer is the tick of what it was. *)
Theorem poll_renders_once (clientWidth : float) (evs : list event)
    (o : outcome) :
  pollStatus o (run clientWidth evs)
  = draw (reconciled o (run clientWidth evs)) /\
  passes (calls_since (run clientWidth evs)
            (handle (run clientWidth evs) (Poll o))) = 1%nat /\
  objects (handle (run clientWidth evs) (Poll o))
  = tick (objects (reconciled o (run clientWidth evs))) /\
  objects (reconciled o (run clientWidth evs))
  = match o with
    | Resolved (JsonObject data) => objects (stored data (run clientWidth evs))
    | _ => objects (run clientWidth evs)
    end /\
  (forall objs,
     tick objs
     = filter (fun obj => 0 <? Obj.life obj)
         (map (fun obj => {| Obj.a := Obj.a obj; Obj.r := Obj.r obj;
                             Obj.life := Obj.life obj - 0.02 |}) objs)).
Proof.
  pose proof (run_settled clientWidth evs) as H.
  split; [apply pollStatus_draw, H | ].
  split; [ | split; [ | split; [apply reconciled_objects | reflexivity]]].
  - unfold handle. rewrite (pollStatus_settled o _ H).
    apply passes_rendered, reconciled_page.
  - unfold handle. rewrite (pollStatus_settled o _ H). reflexivity.
Qed.

(** C10: a successful poll that reports a mode outside 0-3 stores it;
    [updateUI] then finds no name for it, sets the class of the badge to
    the text "undefined" and throws on [toUpperCase], while the color
    lookup of [draw] falls back to green. The rejection runs the failure
    handler, so the poll ends with the page marked offline. *)
Theorem unknown_mode_breaks_badge (o : Data.t) (m : float) (s : State) :
  Data.mode o = JS.number m ->
  recognised (JS.number m) = false ->
  is_nan m = false ->
  currentMode (stored o s) = JS.number m /\
  JS.element modeNames (currentMode (stored o s)) = None /\
  updateUI (stored o s) = Throw (set_badge_className "undefined" (stored o s)) /\
  JS.string_or (JS.element modeColors (currentMode (stored o s))) "#0f0"
  = "#0f0" /\
  isOffline (state_of (pollStatus (Resolved (JsonObject o)) s)) = true /\
  currentMode (state_of (pollStatus (Resolved (JsonObject o)) s)) = JS.number m.
Proof.
  intros Hm Hr Hn.
  destruct (stored_view o s) as [Hoff [_ [_ [Hmode _]]]].
  simpl in Hr. apply orb_false_iff in Hr as [Hr H3].
  apply orb_false_iff in Hr as [Hr H2]. apply orb_false_iff in Hr as [H0 H1].
  assert (Hc : currentMode (stored o s) = JS.number m).
  { rewrite Hmode, Hm. unfold JS.or, JS.ToBoolean. rewrite H0, Hn. reflexivity. }
  assert (He : JS.element modeNames (currentMode (stored o s)) = None).
  { rewrite Hc. simpl. rewrite H0, H1, H2, H3. reflexivity. }
  split; [exact Hc | split; [exact He | ]].
  split; [apply updateUI_unknown; assumption | ].
  split; [rewrite Hc; simpl; rewrite H0, H1, H2, H3; reflexivity | ].
  split.
  - unfold pollStatus, try_catch, response. rewrite bind_ret. unfold on_status.
    rewrite (bind_ok _ _ _ _ tt (store_status_object o s)).
    rewrite (bind_throw _ _ _ _ (updateUI_unknown _ Hoff He)).
    rewrite (on_failure_keeps isOffline _ view_isOffline). reflexivity.
  - rewrite (delivered_keeps currentMode o s view_currentMode) by reflexivity.
    exact Hc.
Qed.

End Proofs.

(** * Beyond the claims *)

(** ** More on the comparison of numbers *)

Lemma SFcompare_swap (x y : spec_float) :
  SFcompare y x = option_map CompOpp (SFcompare x y).
Proof.
  destruct x as [sx | sx | | sx mx ex], y as [sy | sy | | sy my ey];
    simpl; try reflexivity;
    try (destruct sx; reflexivity);
    try (destruct sy; reflexivity);
    try (destruct sx, sy; reflexivity).
  pose proof (Pos.compare_cont_antisym mx my Eq) as A. simpl in A.
  destruct sx, sy; try reflexivity;
    rewrite (Z.compare_antisym ex ey);
    destruct (ex ?= ey)%Z; simpl; try reflexivity;
    rewrite <- A; reflexivity.
Qed.

(** Numbers that compare equal compare alike with any third. *)
Lemma SFcompare_Eq_subst (x a b : spec_float) :
  SFcompare x a = Some Eq -> SFcompare x b = SFcompare a b.
Proof.
  destruct x as [sx | sx | | sx mx ex], a as [sa | sa | | sa ma ea];
    simpl; try discriminate;
    try (destruct sx; discriminate);
    try (destruct sa; discriminate).
  - intros _. reflexivity.
  - destruct sx, sa; try discriminate; intros _; reflexivity.
  - destruct sx, sa; try discriminate;
      destruct (ex ?= ea)%Z eqn:E; try discriminate;
      apply Z.compare_eq in E; subst ea;
      change (PosDef.Pos.compare_cont Eq mx ma) with (Pos.compare mx ma);
      destruct (Pos.compare mx ma) eqn:F; simpl; try discriminate;
      apply Pos.compare_eq in F; subst ma; intros _; reflexivity.
Qed.

Lemma eqb_sym (x y : float) : (x =? y) = (y =? x).
Proof.
  rewrite !FloatAxioms.eqb_spec. unfold SFeqb.
  rewrite (SFcompare_swap (Prim2SF x) (Prim2SF y)).
  destruct (SFcompare (Prim2SF x) (Prim2SF y)) as [[ | | ] | ]; reflexivity.
Qed.

(** A number equals at most one of two different numbers. *)
Lemma eqb_exclusive (x a b : float) :
  (a =? b) = false -> (x =? a) = true -> (x =? b) = false.
Proof.
  rewrite !FloatAxioms.eqb_spec. unfold SFeqb. intros Hab Ha.
  destruct (SFcompare (Prim2SF x) (Prim2SF a)) as [[ | | ] | ] eqn:E;
    try discriminate.
  rewrite (SFcompare_Eq_subst _ _ (Prim2SF b) E). exact Hab.
Qed.

Lemma not_nan_compare (x y : float) :
  is_nan x = false -> is_nan y = false ->
  SFcompare (Prim2SF x) (Prim2SF y) <> None.
Proof.
  unfold is_nan. rewrite !FloatAxioms.eqb_spec. unfold SFeqb. intros Hx Hy.
  destruct (Prim2SF x) as [sx | sx | | sx mx ex];
    destruct (Prim2SF y) as [sy | sy | | sy my ey];
    simpl in *; try discriminate.
Qed.

Lemma ltb_leb (x y : float) : (x <? y) = true -> (x <=? y) = true.
Proof.
  rewrite FloatAxioms.ltb_spec, FloatAxioms.leb_spec. unfold SFltb, SFleb.
  destruct (SFcompare (Prim2SF x) (Prim2SF y)) as [[ | | ] | ];
    try discriminate; reflexivity.
Qed.

(** Between numbers, [x <= y] unless [y < x]. *)
Lemma leb_of_not_ltb (x y : float) :
  is_nan x = false -> is_nan y = false -> (y <? x) = false -> (x <=? y) = true.
Proof.
  intros Hx Hy. pose proof (not_nan_compare x y Hx Hy) as N.
  rewrite FloatAxioms.ltb_spec, FloatAxioms.leb_spec. unfold SFltb, SFleb.
  rewrite (SFcompare_swap (Prim2SF x) (Prim2SF y)).
  destruct (SFcompare (Prim2SF x) (Prim2SF y)) as [[ | | ] | ];
    simpl; try discriminate; try reflexivity.
  congruence.
Qed.

(** [Math.min] of two numbers is below both. *)
Lemma Math_min_below (x y : float) :
  is_nan x = false -> is_nan y = false ->
  (JS.Math_min x y <=? x) = true /\ (JS.Math_min x y <=? y) = true.
Proof.
  intros Hx Hy. unfold JS.Math_min. rewrite Hx, Hy. simpl.
  assert (Rx : (x <=? x) = true)
    by (apply leb_of_not_ltb; auto;
        destruct (x <? x) eqn:E; [ | reflexivity];
        pose proof (ltb_not_leb _ _ E) as L; pose proof (ltb_leb _ _ E); congruence).
  assert (Ry : (y <=? y) = true)
    by (apply leb_of_not_ltb; auto;
        destruct (y <? y) eqn:E; [ | reflexivity];
        pose proof (ltb_not_leb _ _ E) as L; pose proof (ltb_leb _ _ E); congruence).
  destruct (x <? y) eqn:Lxy.
  - split; [exact Rx | apply ltb_leb, Lxy].
  - destruct (y <? x) eqn:Lyx.
    + split; [apply ltb_leb, Lyx | exact Ry].
    + destruct ((x =? 0) && (1 / x <? 0)).
      * split; [exact Rx | apply leb_of_not_ltb; assumption].
      * split; [apply leb_of_not_ltb; assumption | exact Ry].
Qed.

(** ** The size of the buffer *)

Lemma descending_length (lo hi : nat) (ks : list nat) :
  descending ks -> Forall (fun k => (lo <= k < hi)%nat) ks ->
  (List.length ks <= hi - lo)%nat.
Proof.
  revert hi. induction ks as [ | k ks IH]; intros hi D B; simpl.
  - lia.
  - destruct D as [L D]. inversion B as [ | k' ks' Bk Bks]; subst.
    assert (B' : Forall (fun j => (lo <= j < k)%nat) ks).
    { rewrite Forall_forall in *. intros j Hj.
      specialize (L j Hj). specialize (Bks j Hj). simpl in *. lia. }
    specialize (IH k D B'). lia.
Qed.

Lemma descending_snoc_zero (ks : list nat) :
  descending ks -> Forall (fun k => (1 <= k < 50)%nat) ks ->
  descending (ks ++ [0%nat]).
Proof.
  induction ks as [ | k ks IH]; intros D B; simpl.
  - split; [constructor | exact I].
  - destruct D as [L D]. inversion B as [ | k' ks' Bk Bks]; subst.
    split; [ | apply IH; assumption].
    apply Forall_app. split; [exact L | ].
    constructor; [lia | constructor].
Qed.

Lemma descending_next (ks : list nat) :
  descending ks ->
  descending (filter (fun k => (k <? 50)%nat) (map S ks)).
Proof.
  induction ks as [ | k ks IH]; intros D; simpl; [exact I | ].
  destruct D as [L D]. specialize (IH D).
  assert (F : Forall (fun j => (j < S k)%nat)
                (filter (fun k => (k <? 50)%nat) (map S ks))).
  { rewrite Forall_forall in *. intros j Hj.
    apply filter_In in Hj as [Hj _]. apply in_map_iff in Hj as [i [<- Hi]].
    specialize (L i Hi). simpl in L. lia. }
  destruct (S k <? 50)%nat; [split; assumption | exact IH].
Qed.

(** One tick moves every entry to the next age and drops the one that
    reaches age 50. *)
Lemma tick_ages (objs : list Obj.t) (ks : list nat) :
  map Obj.life objs = map life_after ks ->
  Forall (fun k => (k < 50)%nat) ks ->
  map Obj.life (tick objs)
  = map life_after (filter (fun k => (k <? 50)%nat) (map S ks)).
Proof.
  revert ks. unfold tick.
  induction objs as [ | obj objs IH]; intros [ | k ks] E B;
    try discriminate; [reflexivity | ].
  simpl in E. injection E as Ek E. inversion B as [ | k' ks' Bk Bks]; subst.
  simpl. unfold alive at 1. simpl. rewrite Ek.
  change (life_after k - 0.02) with (life_after (S k)).
  rewrite (life_after_positive k Bk).
  destruct (S k <? 50)%nat; simpl; rewrite ?Ek, (IH ks E Bks); reflexivity.
Qed.

Lemma aged_length (lo : nat) (objs : list Obj.t) :
  aged lo objs -> (List.length objs <= 50 - lo)%nat.
Proof.
  intros [ks [E [D B]]].
  assert (L : List.length objs = List.length ks).
  { rewrite <- (length_map Obj.life objs), E. apply length_map. }
  rewrite L. apply descending_length; assumption.
Qed.

Lemma aged_weaken (objs : list Obj.t) : aged 1 objs -> aged 0 objs.
Proof.
  intros [ks [E [D B]]]. exists ks. split; [exact E | split; [exact D | ]].
  eapply Forall_impl; [ | exact B]. simpl. intros. lia.
Qed.

Lemma aged_push (objs : list Obj.t) (o : Data.t) :
  aged 1 objs -> aged 0 (objs ++ [detection o]).
Proof.
  intros [ks [E [D B]]]. exists (ks ++ [0%nat]).
  split; [rewrite !map_app, E; reflexivity | ].
  split; [apply descending_snoc_zero; assumption | ].
  apply Forall_app. split.
  - eapply Forall_impl; [ | exact B]. simpl. intros. lia.
  - constructor; [lia | constructor].
Qed.

Lemma aged_tick (objs : list Obj.t) : aged 0 objs -> aged 1 (tick objs).
Proof.
  intros [ks [E [D B]]].
  exists (filter (fun k => (k <? 50)%nat) (map S ks)).
  split; [ | split; [apply descending_next, D | ]].
  - apply tick_ages; [exact E | ].
    eapply Forall_impl; [ | exact B]. simpl. intros. lia.
  - rewrite Forall_forall. intros j Hj.
    apply filter_In in Hj as [Hj Hlt]. apply in_map_iff in Hj as [i [<- _]].
    apply Nat.ltb_lt in Hlt. lia.
Qed.

Section Beyond.

Context {engine : MathLib}.

Lemma reconciled_aged (o : outcome) (s : State) :
  aged 1 (objects s) -> aged 0 (objects (reconciled o s)).
Proof.
  intros A. rewrite reconciled_objects.
  destruct o as [ | | | [ | o]]; try (apply aged_weaken, A).
  rewrite stored_objects. destruct (JS.gt _ _).
  - apply aged_push, A.
  - rewrite app_nil_r. apply aged_weaken, A.
Qed.

Lemma run_aged (clientWidth : float) (evs : list event) :
  aged 1 (objects (run clientWidth evs)).
Proof.
  induction evs as [ | ev evs IH] using rev_ind.
  - unfold run. cbn [fold_left]. rewrite init_settled.
    exists []. repeat split; constructor.
  - rewrite run_snoc. destruct ev as [o | w].
    + unfold handle.
      rewrite (pollStatus_settled o _ (run_settled clientWidth evs)).
      apply aged_tick, reconciled_aged, IH.
    + exact IH.
Qed.

(** X1: the buffer never holds more than 49 detections between events,
    and never more than 50 when a render pass starts: each poll records at
    most one, and each is dropped by its 50th pass. *)
Theorem buffer_bounded (clientWidth : float) (evs : list event) :
  (List.length (objects (run clientWidth evs)) <= 49)%nat /\
  (forall o,
     List.length (objects (reconciled o (run clientWidth evs))) <= 50)%nat.
Proof.
  split.
  - apply (aged_length 1), run_aged.
  - intros o. apply (aged_length 0), reconciled_aged, run_aged.
Qed.

(** ** The widgets after a poll *)

Lemma element_recognised (v : JS.value) :
  match JS.element modeNames v with Some _ => true | None => false end
  = recognised v.
Proof.
  destruct v as [ | x]; [reflexivity | ]. simpl.
  destruct (x =? 0); [reflexivity | ].
  destruct (x =? 1); [reflexivity | ].
  destruct (x =? 2); [reflexivity | ].
  destruct (x =? 3); reflexivity.
Qed.

Lemma controls_mirrors (s : State) :
  (if isOffline s
   then badge_className s = "offline" /\ badge_textContent s = "OFFLINE"
   else exists name,
          JS.element modeNames (currentMode s) = Some name /\
          badge_className s = name /\
          badge_textContent s = JS.toUpperCase name) ->
  mirrors (controls s).
Proof. intros H. repeat split. exact H. Qed.

Lemma went_offline_mirrors (s : State) : mirrors (went_offline s).
Proof. apply controls_mirrors. split; reflexivity. Qed.

Lemma reconciled_mirrors (o : outcome) (s : State) :
  mirrors (reconciled o s).
Proof.
  unfold reconciled.
  destruct o as [ | | | [ | o]];
    try (rewrite reconcile_rejected by discriminate;
         apply went_offline_mirrors).
  - rewrite reconcile_null. apply went_offline_mirrors.
  - destruct (stored_view o s) as [Hoff [_ [_ [Hmode _]]]].
    destruct (JS.element modeNames (JS.or (Data.mode o) (JS.number 0)))
      as [name | ] eqn:E.
    + rewrite (reconcile_known o s name E). apply controls_mirrors.
      change (isOffline (badge name (JS.toUpperCase name) (stored o s)))
        with (isOffline (stored o s)).
      rewrite Hoff. exists name. repeat split.
      change (currentMode (badge name (JS.toUpperCase name) (stored o s)))
        with (currentMode (stored o s)).
      rewrite Hmode. exact E.
    + rewrite (reconcile_unknown o s E). apply went_offline_mirrors.
Qed.

Lemma handle_mirrors (s : State) (ev : event) :
  settled s = true ->
  (match ev with Poll _ => True | Resize _ => mirrors s end) ->
  mirrors (handle s ev).
Proof.
  intros H Hm. destruct ev as [o | w].
  - unfold handle. rewrite (pollStatus_settled o s H).
    exact (reconciled_mirrors o s).
  - exact Hm.
Qed.

Lemma fold_handle_mirrors (evs : list event) (s : State) :
  settled s = true -> mirrors s -> mirrors (fold_left handle evs s).
Proof.
  revert s. induction evs as [ | ev evs IH]; intros s H Hm; simpl.
  - exact Hm.
  - apply IH; [apply handle_settled, H | ].
    apply handle_mirrors; [exact H | destruct ev; [exact I | exact Hm]].
Qed.

Lemma run_cons (clientWidth : float) (before : list event) (ev : event)
    (after : list event) :
  run clientWidth (before ++ ev :: after)
  = fold_left handle after (handle (run clientWidth before) ev).
Proof. unfold run. rewrite fold_left_app. reflexivity. Qed.

Lemma run_mirrors (clientWidth : float) (before : list event) (o : outcome)
    (after : list event) :
  mirrors (run clientWidth (before ++ Poll o :: after)).
Proof.
  rewrite (run_cons clientWidth before (Poll o) after).
  pose proof (run_settled clientWidth before) as H.
  apply fold_handle_mirrors.
  - apply handle_settled, H.
  - apply handle_mirrors; [exact H | exact I].
Qed.

(** X2: from the first poll on, whatever way it and the later ones
    settle, the widgets mirror the view variables: the toggle button reads
    STOP exactly while running, the mode button of the current mode is the
    one selected, and the badge shows OFFLINE or the name of the mode. *)
Theorem widgets_mirror_view (clientWidth : float) (before : list event)
    (o : outcome) (after : list event) :
  mirrors (run clientWidth (before ++ Poll o :: after)) /\
  map JS.toUpperCase modeNames = ["SENTRY"; "STEALTH"; "AGGRESSIVE"; "PARTY"].
Proof. split; [apply run_mirrors | reflexivity]. Qed.

Lemma chosen_strict_equals (mode : JS.value) :
  chosen (map (fun i => JS.strict_equals (JS.number i) mode) [0; 1; 2; 3])
  = (if recognised mode then 1 else 0)%nat.
Proof.
  destruct mode as [ | x]; [reflexivity | ].
  unfold chosen, recognised. simpl.
  rewrite (eqb_sym 0 x), (eqb_sym 1 x), (eqb_sym 2 x), (eqb_sym 3 x).
  destruct (x =? 0) eqn:E0.
  - rewrite (eqb_exclusive x 0 1 eq_refl E0), (eqb_exclusive x 0 2 eq_refl E0),
      (eqb_exclusive x 0 3 eq_refl E0). reflexivity.
  - destruct (x =? 1) eqn:E1.
    + rewrite (eqb_exclusive x 1 2 eq_refl E1), (eqb_exclusive x 1 3 eq_refl E1).
      reflexivity.
    + destruct (x =? 2) eqn:E2.
      * rewrite (eqb_exclusive x 2 3 eq_refl E2). reflexivity.
      * destruct (x =? 3); reflexivity.
Qed.

(** X3: from the first poll on, exactly one of the four mode buttons is
    selected while the mode is one of 0-3, and none while it is any other
    value. *)
Theorem one_mode_button_selected (clientWidth : float) (before : list event)
    (o : outcome) (after : list event) :
  chosen (mode_selected (run clientWidth (before ++ Poll o :: after)))
  = (if recognised (currentMode (run clientWidth (before ++ Poll o :: after)))
     then 1 else 0)%nat.
Proof.
  destruct (run_mirrors clientWidth before o after) as [_ [_ [E _]]].
  rewrite E. apply chosen_strict_equals.
Qed.

(** ** What a poll shows *)

Lemma calls_since_poll (o : outcome) (s : State) :
  settled s = true ->
  calls_since s (handle s (Poll o)) = frame (reconciled o s).
Proof.
  intros H. unfold handle. rewrite (pollStatus_settled o s H).
  destruct (reconciled_page o s) as [_ [_ E]].
  unfold calls_since. rewrite <- E.
  exact (calls_since_rendered (reconciled o s)).
Qed.

Lemma reconciled_offline (o : outcome) (s : State) :
  isOffline (reconciled o s) = offline_after o.
Proof.
  unfold reconciled, offline_after.
  destruct o as [ | | | [ | o]];
    try (rewrite reconcile_rejected by discriminate; reflexivity).
  - reflexivity.
  - rewrite <- element_recognised.
    destruct (stored_view o s) as [Hoff _].
    destruct (JS.element modeNames (JS.or (Data.mode o) (JS.number 0)))
      as [name | ] eqn:E.
    + rewrite (reconcile_known o s name E). exact Hoff.
    + rewrite (reconcile_unknown o s E). reflexivity.
Qed.

Lemma warning_blips (s : State) (objs : list Obj.t) :
  filter is_warning (map (blip s) objs) = [].
Proof. induction objs as [ | obj objs IH]; [reflexivity | exact IH]. Qed.

Lemma paint_frame_warning (p : pen) (s : State) :
  settled s = true ->
  filter is_warning (paint p (frame s))
  = if isOffline s
    then [Label (Css "#f00") "bold 16px monospace" "center" "DISCONNECTED"
            (cx s) (cy s - 40)]
    else [].
Proof.
  intros H. unfold frame. rewrite paint_app, paint_app, !filter_app.
  rewrite (paint_blips s _ _ (settled_tick_fresh s H)), warning_blips.
  destruct (paint_backdrop p s) as [E _]. rewrite E.
  replace (filter is_warning
             (Rect (Css "#000") 0 0 (JS.ToNumber (width s))
                (JS.ToNumber (height s))
              :: grid s
              ++ [Outline (Css (color s)) 2 (traced (sweep_path s));
                  Area (Css "#000") (traced (glow_path s))]))
    with (@nil shape) by reflexivity.
  unfold warning. destruct (isOffline s); reflexivity.
Qed.

(** X4: after a poll from any state the page reaches, the page is marked
    offline exactly when the poll delivered no object or delivered a mode
    outside 0-3, and the render pass of the poll paints the DISCONNECTED
    label, centered at half the width and 215 down, in exactly that case. *)
Theorem offline_shown_after_poll (clientWidth : float) (evs : list event)
    (o : outcome) (p : pen) :
  isOffline (handle (run clientWidth evs) (Poll o)) = offline_after o /\
  filter is_warning
    (paint p (calls_since (run clientWidth evs)
                (handle (run clientWidth evs) (Poll o))))
  = if offline_after o
    then [Label (Css "#f00") "bold 16px monospace" "center" "DISCONNECTED"
            (cx (run clientWidth evs)) 215]
    else [].
Proof.
  pose proof (run_settled clientWidth evs) as H.
  split.
  - unfold handle. rewrite (pollStatus_settled o _ H).
    exact (reconciled_offline o _).
  - rewrite (calls_since_poll o _ H).
    rewrite (paint_frame_warning p _ (reconciled_settled o _ H)).
    rewrite reconciled_offline.
    destruct (reconciled_page o (run clientWidth evs)) as [Ew [Eh _]].
    unfold cx, cy. rewrite Ew, Eh, (settled_height _ H).
    destruct (offline_after o); reflexivity.
Qed.

Lemma paint_frame_pen (p p' : pen) (s : State) :
  settled s = true ->
  paint p (frame s) = paint p' (frame s).
Proof.
  intros H. unfold frame.
  rewrite !paint_app, !(paint_blips s _ _ (settled_tick_fresh s H)).
  destruct (paint_backdrop p s) as [E _].
  destruct (paint_backdrop p' s) as [E' _]. rewrite E, E'.
  f_equal. f_equal. unfold warning. destruct (isOffline s); reflexivity.
Qed.

(** X5: what the render pass of a poll paints does not depend on what the
    context held when the pass began: every style, width, font and path it
    paints with is set in the pass itself. *)
Theorem pass_ignores_leftover_context (clientWidth : float)
    (evs : list event) (o : outcome) (p p' : pen) :
  paint p (calls_since (run clientWidth evs)
             (handle (run clientWidth evs) (Poll o)))
  = paint p' (calls_since (run clientWidth evs)
                (handle (run clientWidth evs) (Poll o))).
Proof.
  rewrite (calls_since_poll o _ (run_settled clientWidth evs)).
  apply paint_frame_pen, reconciled_settled, run_settled.
Qed.

(** ** The size of the canvas *)

Lemma digits2_pos_bound (m : positive) :
  (Zpos m < 2 ^ Zpos (digits2_pos m))%Z.
Proof.
  induction m as [m IH | m IH | ]; cbn [digits2_pos].
  - rewrite Pos2Z.inj_succ, Z.pow_succ_r by lia. lia.
  - rewrite Pos2Z.inj_succ, Z.pow_succ_r by lia. lia.
  - reflexivity.
Qed.

(** The mantissa of a binary64 number has at most 53 digits. *)
Lemma mantissa_bound (x : float) (sign : bool) (m : positive) (e : Z) :
  Prim2SF x = S754_finite sign m e -> (Zpos m < 2 ^ 53)%Z.
Proof.
  intros E. pose proof (Prim2SF_valid x) as V. rewrite E in V.
  cbn [SpecFloat.valid_binary] in V. unfold bounded in V.
  apply andb_true_iff in V as [V _]. unfold canonical_mantissa in V.
  apply Z.eqb_eq in V. unfold fexp in V.
  pose proof (digits2_pos_bound m) as B.
  assert (D : (Zpos (digits2_pos m) <= 53)%Z).
  { change prec with 53%Z in V. lia. }
  apply (Z.lt_le_trans _ _ _ B). apply Z.pow_le_mono_r; lia.
Qed.

(** A number from 0 to 500 truncates to an integer from 0 to 500. *)
Lemma trunc_bounds (w : float) :
  (0 <=? w) = true -> (w <=? 500) = true -> (0 <= trunc w <= 500)%Z.
Proof.
  rewrite !FloatAxioms.leb_spec. unfold trunc, SFleb.
  change (Prim2SF 0) with (S754_zero false).
  change (Prim2SF 500) with (S754_finite false 8796093022208000 (-44)).
  destruct (Prim2SF w) as [s | s | | s m e] eqn:E; cbn [SFcompare].
  - intros _ _. lia.
  - destruct s; discriminate.
  - discriminate.
  - destruct s; [discriminate | ]. intros _.
    pose proof (mantissa_bound w false m e E) as B.
    destruct (e ?= -44)%Z eqn:C; try discriminate.
    + apply Z.compare_eq in C. subst e. intros L.
      assert (M : (Zpos m <= 8796093022208000)%Z).
      { unfold Z.le. cbn [Z.compare]. unfold Pos.compare.
        destruct (Pos.compare_cont Eq m 8796093022208000);
          discriminate. }
      clear L. split; [apply Z.div_pos; lia | ].
      change 500%Z with (8796093022208000 / 2 ^ 44)%Z.
      apply Z.div_le_mono; lia.
    + intros _. destruct e as [ | k | k]; try discriminate C.
      assert (K : (Z.neg k < -44)%Z) by exact C.
      assert (P : (2 ^ 45 <= 2 ^ Zpos k)%Z) by (apply Z.pow_le_mono_r; lia).
      split; [apply Z.div_pos; lia | ].
      assert (Q : (Zpos m / 2 ^ Zpos k < 256)%Z).
      { apply Z.div_lt_upper_bound; [lia | ].
        change (2 ^ 53)%Z with (2 ^ 45 * 256)%Z in B. nia. }
      lia.
Qed.

Lemma unsigned_long_small (dflt : Z) (w : float) :
  (0 <=? w) = true -> (w <=? 500) = true -> unsigned_long dflt w = trunc w.
Proof.
  intros A B. pose proof (trunc_bounds w A B) as T.
  unfold unsigned_long. rewrite Z.mod_small by lia.
  replace (trunc w <=? 2147483647)%Z with true; [reflexivity | ].
  symmetry. apply Z.leb_le. lia.
Qed.

Lemma leb_not_nan (a x : float) : (a <=? x) = true -> is_nan x = false.
Proof.
  rewrite FloatAxioms.leb_spec. unfold is_nan.
  rewrite FloatAxioms.eqb_spec. unfold SFleb, SFeqb.
  destruct (Prim2SF x) as [s | s | | s m e].
  - reflexivity.
  - destruct s; reflexivity.
  - destruct (Prim2SF a); discriminate.
  - intros _. cbn [SFcompare].
    rewrite Z.compare_refl, Pos.compare_cont_refl. destruct s; reflexivity.
Qed.

(** [Math.min] with 500 of a number that is not negative. *)
Lemma Math_min_capped (x : float) :
  (0 <=? x) = true ->
  (JS.Math_min x 500 = x \/ JS.Math_min x 500 = 500) /\
  (0 <=? JS.Math_min x 500) = true /\
  (JS.Math_min x 500 <=? 500) = true /\
  (JS.Math_min x 500 <=? x) = true /\
  ((x <? 500) = true -> JS.Math_min x 500 = x) /\
  ((500 <? x) = true -> JS.Math_min x 500 = 500).
Proof.
  intros P. pose proof (leb_not_nan 0 x P) as N.
  destruct (Math_min_below x 500 N eq_refl) as [B1 B2].
  assert (C : JS.Math_min x 500 = x \/ JS.Math_min x 500 = 500).
  { unfold JS.Math_min. rewrite N. cbn [orb is_nan].
    change (negb (500 =? 500)) with false. cbv iota.
    destruct (x <? 500); [left; reflexivity | ].
    destruct (500 <? x); [right; reflexivity | ].
    destruct ((x =? 0) && (1 / x <? 0)); [left | right]; reflexivity. }
  split; [exact C | ].
  split; [destruct C as [-> | ->]; [exact P | reflexivity] | ].
  split; [exact B2 | split; [exact B1 | ]].
  split.
  - intros L. unfold JS.Math_min. rewrite N, L. reflexivity.
  - intros L. unfold JS.Math_min. rewrite N, L.
    destruct (x <? 500) eqn:L'; [ | reflexivity].
    pose proof (ltb_not_leb _ _ L) as A. pose proof (ltb_leb _ _ L') as B.
    congruence.
Qed.

Lemma resizeCanvas_state (clientWidth : float) (s : State) :
  state_of (resizeCanvas clientWidth s)
  = set_ctx_calls []
      (set_canvas_size
         (unsigned_long 300 (JS.Math_min (clientWidth - 20) 500), 260%Z)
         (set_height (JS.number 260)
            (set_width (JS.number (JS.Math_min (clientWidth - 20) 500)) s))).
Proof. destruct s. reflexivity. Qed.


(** A failed poll in the goal leaves [f] as the failure handler found it. *)
Ltac failed_poll f V :=
  match goal with
  | |- context [pollStatus ?o ?s] =>
      rewrite (failed_keeps f o s V (eq_refl true))
  end.

Lemma poll_canvas_size (o : outcome) (s : State) :
  canvas_size (state_of (pollStatus o s)) = canvas_size s.
Proof.
  assert (V : view canvas_size) by (constructor; reflexivity).
  destruct o as [ | | | [ | d]];
    try (failed_poll canvas_size V; reflexivity).
  rewrite (delivered_keeps canvas_size d s V) by reflexivity.
  unfold stored, noted, recorded.
  destruct (JS.ToBoolean _), (JS.gt _ _); reflexivity.
Qed.

Lemma poll_width (o : outcome) (s : State) :
  width (state_of (pollStatus o s)) = width s.
Proof.
  assert (V : view width) by (constructor; reflexivity).
  destruct o as [ | | | [ | d]];
    try (failed_poll width V; reflexivity).
  rewrite (delivered_keeps width d s V) by reflexivity.
  apply stored_page.
Qed.

Lemma poll_height (o : outcome) (s : State) :
  height (state_of (pollStatus o s)) = height s.
Proof.
  assert (V : view height) by (constructor; reflexivity).
  destruct o as [ | | | [ | d]];
    try (failed_poll height V; reflexivity).
  rewrite (delivered_keeps height d s V) by reflexivity.
  apply stored_page.
Qed.

Lemma resizeCanvas_sized (clientWidth : float) (s : State) :
  roomy clientWidth = true -> sized (state_of (resizeCanvas clientWidth s)).
Proof.
  unfold roomy. intros R. apply andb_true_iff in R as [P W].
  destruct (Math_min_capped (clientWidth - 20) P) as [C [A [B _]]].
  exists (JS.Math_min (clientWidth - 20) 500).
  rewrite resizeCanvas_state.
  cbn [width canvas_size set_ctx_calls set_canvas_size set_height set_width
       fst snd].
  rewrite (unsigned_long_small 300 _ A B).
  split; [reflexivity | ].
  split; [ | split; [apply (trunc_bounds _ A B) | reflexivity]].
  destruct C as [-> | ->]; [exact W | reflexivity].
Qed.

Lemma poll_sized (o : outcome) (s : State) :
  sized s -> sized (state_of (pollStatus o s)).
Proof.
  unfold sized. rewrite poll_canvas_size, poll_width. intros H. exact H.
Qed.

Lemma rendered_sized (s : State) : sized s -> sized (rendered s).
Proof. intros H. exact H. Qed.

Lemma run_sized (clientWidth : float) (evs : list event) :
  roomy clientWidth = true -> forallb fits evs = true ->
  sized (run clientWidth evs).
Proof.
  intros R F. induction evs as [ | ev evs IH] using rev_ind.
  - unfold run. cbn [fold_left]. rewrite init_settled. cbn [state_of].
    apply rendered_sized, resizeCanvas_sized, R.
  - rewrite forallb_app in F. apply andb_true_iff in F as [F Fe].
    cbn [forallb] in Fe. apply andb_true_iff in Fe as [Fe _].
    rewrite run_snoc. destruct ev as [o | w]; unfold handle.
    + apply poll_sized, IH, F.
    + apply resizeCanvas_sized, Fe.
Qed.

(** X7: while the container is at least 20 wide, a whole number of
    pixels, at [init] and at every resize, the canvas has in every state
    the page reaches the size the renderer computes with: it is as wide as
    [width], a whole number from 0 to 500, and 260 high, so the display
    radius is 245 and the sweep origin lies 255 down, at half the width.
    A poll, however it settles, changes neither the size of the canvas
    nor [width] nor [height]. *)
Theorem canvas_matches_renderer (clientWidth : float) (evs : list event) :
  roomy clientWidth = true ->
  forallb fits evs = true ->
  height (run clientWidth evs) = JS.number 260 /\
  (exists w,
     width (run clientWidth evs) = JS.number w /\
     (w =? of_Z (fst (canvas_size (run clientWidth evs)))) = true /\
     (0 <= fst (canvas_size (run clientWidth evs)) <= 500)%Z /\
     snd (canvas_size (run clientWidth evs)) = 260%Z) /\
  radius (run clientWidth evs) = 245 /\
  cy (run clientWidth evs) = 255 /\
  (forall o,
     canvas_size (handle (run clientWidth evs) (Poll o))
     = canvas_size (run clientWidth evs) /\
     width (handle (run clientWidth evs) (Poll o))
     = width (run clientWidth evs) /\
     height (handle (run clientWidth evs) (Poll o))
     = height (run clientWidth evs)).
Proof.
  intros R F.
  pose proof (settled_height _ (run_settled clientWidth evs)) as Hh.
  split; [exact Hh | ].
  split; [exact (run_sized clientWidth evs R F) | ].
  split; [unfold radius; rewrite Hh; reflexivity | ].
  split; [unfold cy; rewrite Hh; reflexivity | ].
  intros o. unfold handle.
  rewrite poll_canvas_size, poll_width, poll_height. repeat split.
Qed.

(** ** A run, by its events *)

Lemma latest_status_snoc (evs : list event) (ev : event) :
  latest_status (evs ++ [ev])
  = match ev with
    | Poll (Resolved (JsonObject o)) => Some o
    | _ => latest_status evs
    end.
Proof. unfold latest_status. rewrite fold_left_app. reflexivity. Qed.

Lemma footer_after_snoc (evs : list event) (ev : event) (text : footer) :
  footer_after (evs ++ [ev]) text
  = match ev with
    | Poll (Resolved (JsonObject o)) =>
        if JS.ToBoolean (Data.li_a o) && JS.ToBoolean (Data.li_d o)
        then LAST (Data.li_d o) (Data.li_a o)
        else footer_after evs text
    | _ => footer_after evs text
    end.
Proof. unfold footer_after. rewrite fold_left_app. reflexivity. Qed.

(** X8: the view variables always hold what the last delivered [/status]
    object said, whatever came before it and whatever failed after it:
    its angle, its range or 50, its mode or 0, and whether its [running]
    is 1; before the first one they hold 90, 50, 0 and not running. *)
Theorem view_is_last_status (clientWidth : float) (evs : list event) :
  scanAngle (run clientWidth evs)
  = match latest_status evs with
    | Some o => Data.a o
    | None => JS.number 90
    end /\
  maxRange (run clientWidth evs)
  = match latest_status evs with
    | Some o => JS.or (Data.r o) (JS.number 50)
    | None => JS.number 50
    end /\
  currentMode (run clientWidth evs)
  = match latest_status evs with
    | Some o => JS.or (Data.mode o) (JS.number 0)
    | None => JS.number 0
    end /\
  isRunning (run clientWidth evs)
  = match latest_status evs with
    | Some o => JS.strict_equals (Data.running o) (JS.number 1)
    | None => false
    end.
Proof.
  induction evs as [ | ev evs IH] using rev_ind.
  - unfold run. cbn [fold_left]. rewrite init_settled. repeat split.
  - rewrite run_snoc, latest_status_snoc.
    destruct IH as [Ia [Ir [Im Iu]]].
    destruct ev as [[ | | | [ | o]] | w]; unfold handle;
      try (failed_poll scanAngle view_scanAngle;
           failed_poll maxRange view_maxRange;
           failed_poll currentMode view_currentMode;
           failed_poll isRunning view_isRunning;
           repeat split; assumption).
    + rewrite (delivered_keeps scanAngle o _ view_scanAngle) by reflexivity.
      rewrite (delivered_keeps maxRange o _ view_maxRange) by reflexivity.
      rewrite (delivered_keeps currentMode o _ view_currentMode) by reflexivity.
      rewrite (delivered_keeps isRunning o _ view_isRunning) by reflexivity.
      destruct (stored_view o (run clientWidth evs)) as [_ [A [R [Mo U]]]].
      repeat split; assumption.
    + repeat split; assumption.
Qed.

(** X9: the footer always shows the last pair a delivered [/status] object
    carried with both its angle and its distance non-zero, and READY before
    the first such pair; failed polls, responses without such a pair and
    resizes never clear it. *)
Theorem footer_is_last_intrusion (clientWidth : float) (evs : list event) :
  last_detection (run clientWidth evs) = footer_after evs READY.
Proof.
  induction evs as [ | ev evs IH] using rev_ind.
  - unfold run. cbn [fold_left]. rewrite init_settled. reflexivity.
  - rewrite run_snoc, footer_after_snoc.
    destruct ev as [[ | | | [ | o]] | w]; unfold handle;
      try (failed_poll last_detection view_last_detection; exact IH).
    + rewrite last_detection_after_status, IH. reflexivity.
    + exact IH.
Qed.

End Beyond.

(** ** The settings *)

Lemma valid_spec (n : Cfg.name) (z : Z) :
  valid n z = true <->
  (lo n <= z <= hi n)%Z /\ ((z - lo n) mod step n = 0)%Z.
Proof.
  unfold valid. rewrite !andb_true_iff, !Z.leb_le, Z.eqb_eq. tauto.
Qed.

(** The bounds of [adjust] keep a value on the steps of its slider. *)
Lemma clamp_valid (n : Cfg.name) (z delta : Z) :
  valid n z = true -> (delta mod step n = 0)%Z ->
  valid n (Z.max (lo n) (Z.min (hi n) (z + delta))) = true.
Proof.
  rewrite !valid_spec. destruct n; simpl; intros [B S] D;
    (split; [lia | ]); try apply Z.mod_1_r.
  Z.div_mod_to_equations. lia.
Qed.

Lemma slider_set_slider (n : Cfg.name) (z : Z) (p : Panel) :
  slider n (set_slider n z p) = z.
Proof. destruct n; reflexivity. Qed.

Lemma slider_set_slider_other (m n : Cfg.name) (z : Z) (p : Panel) :
  m <> n -> slider m (set_slider n z p) = slider m p.
Proof. destruct m, n; intros H; try reflexivity; contradiction. Qed.

Lemma label_set_label (n : Cfg.name) (v : option Z) (p : Panel) :
  label n (set_label n v p) = v.
Proof. destruct n; reflexivity. Qed.

Lemma label_set_label_other (m n : Cfg.name) (v : option Z) (p : Panel) :
  m <> n -> label m (set_label n v p) = label m p.
Proof. destruct m, n; intros H; try reflexivity; contradiction. Qed.

Lemma slider_set_label (m n : Cfg.name) (v : option Z) (p : Panel) :
  slider m (set_label n v p) = slider m p.
Proof. destruct m, n; reflexivity. Qed.

Lemma label_set_slider (m n : Cfg.name) (z : Z) (p : Panel) :
  label m (set_slider n z p) = label m p.
Proof. destruct m, n; reflexivity. Qed.

Definition name_eq_dec (m n : Cfg.name) : {m = n} + {m <> n}.
Proof. decide equality. Defined.

Section Settings.

Context {browser : RangeInput}.

Lemma slider_adjust (n : Cfg.name) (delta : Z) (p : Panel) :
  slider n (adjust n delta p)
  = sanitize n (Some (Z.max (lo n) (Z.min (hi n) (slider n p + delta)))).
Proof.
  unfold adjust, updateVal. rewrite slider_set_label. apply slider_set_slider.
Qed.

Lemma adjust_steps (n : Cfg.name) (delta : Z) (p : Panel) :
  valid n (slider n p) = true ->
  (delta mod step n = 0)%Z ->
  slider n (adjust n delta p)
  = Z.max (lo n) (Z.min (hi n) (slider n p + delta)) /\
  valid n (slider n (adjust n delta p)) = true.
Proof.
  intros V D. pose proof (clamp_valid n _ delta V D) as C.
  rewrite slider_adjust, (sanitize_keeps n _ C). split; [reflexivity | exact C].
Qed.

(** X10: on a slider that holds a valid value, [adjust] by a multiple of
    the step moves the value by [delta], stopping at the bounds of the
    slider; the label then shows the new value, and the other settings and
    the requests sent are as before. *)
Theorem adjust_stops_at_bounds (n : Cfg.name) (delta : Z) (p : Panel) :
  valid n (slider n p) = true ->
  (delta mod step n = 0)%Z ->
  slider n (adjust n delta p)
  = Z.max (lo n) (Z.min (hi n) (slider n p + delta)) /\
  valid n (slider n (adjust n delta p)) = true /\
  label n (adjust n delta p) = Some (slider n (adjust n delta p)) /\
  (forall m, m <> n ->
     slider m (adjust n delta p) = slider m p /\
     label m (adjust n delta p) = label m p) /\
  sent (adjust n delta p) = sent p.
Proof.
  intros V D. pose proof (clamp_valid n _ delta V D) as C.
  rewrite slider_adjust, (sanitize_keeps n _ C).
  split; [reflexivity | split; [exact C | ]].
  split; [ | split].
  - unfold adjust, updateVal.
    rewrite label_set_label, slider_set_slider, (sanitize_keeps n _ C).
    reflexivity.
  - intros m Hm. unfold adjust, updateVal.
    rewrite slider_set_label, (slider_set_slider_other m n _ _ Hm).
    rewrite (label_set_label_other m n _ _ Hm), label_set_slider.
    split; reflexivity.
  - destruct n; reflexivity.
Qed.

(** X11: while there is room, [adjust] back undoes [adjust] forth: on a
    panel whose label shows the slider's valid value, moving by a multiple
    of the step that stays within the bounds and then by its opposite
    gives the panel back. *)
Theorem adjust_back_and_forth (n : Cfg.name) (delta : Z) (p : Panel) :
  valid n (slider n p) = true ->
  (delta mod step n = 0)%Z ->
  (lo n <= slider n p + delta <= hi n)%Z ->
  label n p = Some (slider n p) ->
  adjust n (- delta) (adjust n delta p) = p.
Proof.
  intros V D R L.
  assert (D' : (- delta mod step n = 0)%Z).
  { destruct n; simpl in *; try apply Z.mod_1_r.
    Z.div_mod_to_equations. lia. }
  destruct (adjust_steps n delta p V D) as [E1 V1].
  destruct (adjust_steps n (- delta) (adjust n delta p) V1 D') as [E2 _].
  assert (E : slider n (adjust n (- delta) (adjust n delta p)) = slider n p).
  { rewrite E2, E1. apply valid_spec in V. lia. }
  unfold adjust at 1. unfold updateVal.
  rewrite slider_set_slider.
  unfold adjust at 1 in E. unfold updateVal in E.
  rewrite slider_set_label, slider_set_slider in E. rewrite E.
  destruct p, n; simpl in *; rewrite L; reflexivity.
Qed.

End Settings.

(** ** The panel under the operator's actions *)

Lemma requests_to_app (url : string) (rs rs' : list request) :
  requests_to url (rs ++ rs') = (requests_to url rs + requests_to url rs')%nat.
Proof. unfold requests_to. rewrite filter_app. apply length_app. Qed.

Section Operation.

Context {browser : RangeInput}.

Lemma slider_setInput (m n : Cfg.name) (v : option Z) (p : Panel) :
  slider m (setInput n v p)
  = if name_eq_dec m n then sanitize n v else slider m p.
Proof.
  unfold setInput. rewrite slider_set_label.
  destruct (name_eq_dec m n) as [-> | H].
  - apply slider_set_slider.
  - apply slider_set_slider_other, H.
Qed.

Lemma label_setInput (m n : Cfg.name) (v : option Z) (p : Panel) :
  label m (setInput n v p) = if name_eq_dec m n then v else label m p.
Proof.
  unfold setInput.
  destruct (name_eq_dec m n) as [-> | H].
  - apply label_set_label.
  - rewrite (label_set_label_other m n _ _ H). apply label_set_slider.
Qed.

Lemma sent_setInput (n : Cfg.name) (v : option Z) (p : Panel) :
  sent (setInput n v p) = sent p.
Proof. destruct n; reflexivity. Qed.

Lemma slider_moved (m n : Cfg.name) (z : Z) (p : Panel) :
  slider m (updateVal n (set_slider n z p))
  = if name_eq_dec m n then z else slider m p.
Proof.
  unfold updateVal. rewrite slider_set_label.
  destruct (name_eq_dec m n) as [-> | H].
  - apply slider_set_slider.
  - apply slider_set_slider_other, H.
Qed.

Lemma label_moved (m n : Cfg.name) (z : Z) (p : Panel) :
  label m (updateVal n (set_slider n z p))
  = if name_eq_dec m n then Some z else label m p.
Proof.
  unfold updateVal.
  destruct (name_eq_dec m n) as [-> | H].
  - rewrite label_set_label, slider_set_slider. reflexivity.
  - rewrite (label_set_label_other m n _ _ H). apply label_set_slider.
Qed.

Lemma sent_moved (n : Cfg.name) (z : Z) (p : Panel) :
  sent (updateVal n (set_slider n z p)) = sent p.
Proof. destruct n; reflexivity. Qed.

Lemma valid_setInput (n : Cfg.name) (v : option Z) (p : Panel) :
  (forall m, valid m (slider m p) = true) ->
  forall m, valid m (slider m (setInput n v p)) = true.
Proof.
  intros V m. rewrite slider_setInput.
  destruct (name_eq_dec m n) as [-> | _]; [apply sanitize_valid | apply V].
Qed.

Lemma valid_moved (n : Cfg.name) (v : option Z) (p : Panel) :
  (forall m, valid m (slider m p) = true) ->
  forall m,
    valid m (slider m (updateVal n (set_slider n (sanitize n v) p))) = true.
Proof.
  intros V m. rewrite slider_moved.
  destruct (name_eq_dec m n) as [-> | _]; [apply sanitize_valid | apply V].
Qed.

Lemma acceptable_saved (p : Panel) :
  (forall n, valid n (slider n p) = true) ->
  acceptable
    {| path := "/save_config";
       query := [("d", slider Cfg.dist p); ("l", slider Cfg.lock p);
                 ("mn", slider Cfg.min p); ("mx", slider Cfg.max p)] |}
  = true.
Proof.
  intros V. unfold acceptable. cbn [path query].
  change (String.eqb "/save_config" "/save_config") with true.
  change (String.eqb "d" "d") with true.
  change (String.eqb "l" "l") with true.
  change (String.eqb "mn" "mn") with true.
  change (String.eqb "mx" "mx") with true.
  cbv iota. rewrite !V. cbn [andb].
  apply Z.ltb_lt.
  pose proof (proj1 (valid_spec _ _) (V Cfg.min)) as [A _].
  pose proof (proj1 (valid_spec _ _) (V Cfg.max)) as [B _].
  cbn [lo hi] in A, B. cbn [slider] in *. lia.
Qed.

Lemma served_sound : sound served.
Proof.
  split; [ | reflexivity]. intros n. destruct n; apply sanitize_valid.
Qed.

Lemma act_sound (p : Panel) (a : action) : sound p -> sound (act p a).
Proof.
  intros [V A]. destruct a as [ | mode | m | m | | c | n z | n delta | | c | t | c];
    cbn [act].
  - split; [exact V | ]. unfold toggleScan, fetch; cbn [sent].
    rewrite forallb_app, A. reflexivity.
  - split; [exact V | ]. unfold setMode, fetch; cbn [sent].
    rewrite forallb_app, A. reflexivity.
  - destruct m; (split; [exact V | ]); unfold openModal, fetch; cbn [sent];
      rewrite forallb_app; cbn [set_modal set_log_text sent]; rewrite A;
      reflexivity.
  - split; [exact V | exact A].
  - split; [exact V | exact A].
  - destruct c; [ | split; [exact V | exact A]].
    split; [exact V | ]. unfold wipeLogs, fetch; cbn [set_log_text sent].
    rewrite forallb_app, A. reflexivity.
  - split; [apply valid_moved, V | rewrite sent_moved; exact A].
  - split; [apply (valid_moved n _ p V) | ].
    unfold adjust. rewrite sent_moved. exact A.
  - split; [exact V | ]. unfold saveSettings, closeModal, fetch;
      cbn [set_modal sent].
    rewrite forallb_app, A. cbn [forallb andb].
    rewrite (acceptable_saved p V). reflexivity.
  - destruct c; [ | split; [exact V | exact A]].
    split; [exact V | ]. unfold resetSettings, closeModal, fetch;
      cbn [set_modal sent].
    rewrite forallb_app, A. reflexivity.
  - split; [exact V | exact A].
  - destruct c as [ | dst lck mn mx]; [split; [exact V | exact A] | ].
    split.
    + cbn [config_loaded]. repeat apply valid_setInput. exact V.
    + cbn [config_loaded]. rewrite !sent_setInput. exact A.
Qed.

Lemma fold_sound (actions : list action) (p : Panel) :
  sound p -> sound (fold_left act actions p).
Proof.
  revert p. induction actions as [ | a actions IH]; intros p S; [exact S | ].
  apply IH, act_sound, S.
Qed.

(** X12: whatever the operator does and whatever the device answers,
    every slider holds a value within its bounds, on a step, and every
    [/save_config] request carries exactly the four keys d, l, mn and mx
    with such values, the least angle below the greatest. *)
Theorem saved_settings_in_range (actions : list action) :
  (forall n, valid n (slider n (operate actions)) = true) /\
  forallb acceptable (sent (operate actions)) = true.
Proof. apply fold_sound, served_sound. Qed.

Lemma wipes_act (p : Panel) (a : action) :
  requests_to "/clear_logs" (sent (act p a))
  = (requests_to "/clear_logs" (sent p) + confirmed_wipes [a])%nat.
Proof.
  destruct a as [ | mode | m | m | | c | n z | n delta | | c | t | c];
    cbn [act];
    try destruct c; try destruct m;
    unfold toggleScan, setMode, openModal, exportLogs, wipeLogs,
      saveSettings, resetSettings, logs_loaded, config_loaded, adjust,
      closeModal;
    rewrite ?sent_setInput, ?sent_moved;
    cbn [fetch set_modal set_log_text download sent];
    rewrite ?requests_to_app; cbn; lia.
Qed.

Lemma resets_act (p : Panel) (a : action) :
  requests_to "/reset_config" (sent (act p a))
  = (requests_to "/reset_config" (sent p) + confirmed_resets [a])%nat.
Proof.
  destruct a as [ | mode | m | m | | c | n z | n delta | | c | t | c];
    cbn [act];
    try destruct c; try destruct m;
    unfold toggleScan, setMode, openModal, exportLogs, wipeLogs,
      saveSettings, resetSettings, logs_loaded, config_loaded, adjust,
      closeModal;
    rewrite ?sent_setInput, ?sent_moved;
    cbn [fetch set_modal set_log_text download sent];
    rewrite ?requests_to_app; cbn; lia.
Qed.

Lemma confirmed_wipes_cons (a : action) (actions : list action) :
  confirmed_wipes (a :: actions)
  = (confirmed_wipes [a] + confirmed_wipes actions)%nat.
Proof.
  unfold confirmed_wipes. cbn [filter].
  destruct a as [ | | | | | [ | ] | | | | | | ]; reflexivity.
Qed.

Lemma confirmed_resets_cons (a : action) (actions : list action) :
  confirmed_resets (a :: actions)
  = (confirmed_resets [a] + confirmed_resets actions)%nat.
Proof.
  unfold confirmed_resets. cbn [filter].
  destruct a as [ | | | | | | | | | [ | ] | | ]; reflexivity.
Qed.

Lemma fold_destructive (actions : list action) (p : Panel) :
  requests_to "/clear_logs" (sent (fold_left act actions p))
  = (requests_to "/clear_logs" (sent p) + confirmed_wipes actions)%nat /\
  requests_to "/reset_config" (sent (fold_left act actions p))
  = (requests_to "/reset_config" (sent p) + confirmed_resets actions)%nat.
Proof.
  revert p. induction actions as [ | a actions IH]; intros p.
  - cbn. split; lia.
  - cbn [fold_left]. destruct (IH (act p a)) as [W R].
    rewrite W, R, wipes_act, resets_act.
    rewrite (confirmed_wipes_cons a actions), (confirmed_resets_cons a actions).
    split; lia.
Qed.

(** X13: the panel asks the device to delete its logs, or to reset its
    settings, once for each dialog the operator confirmed and at no other
    time; a declined dialog leaves the panel as it was. *)
Theorem destructive_requests_confirmed (actions : list action) :
  requests_to "/clear_logs" (sent (operate actions))
  = confirmed_wipes actions /\
  requests_to "/reset_config" (sent (operate actions))
  = confirmed_resets actions /\
  (forall p, act p (WipeLogs false) = p /\ act p (ResetSettings false) = p).
Proof.
  destruct (fold_destructive actions served) as [W R].
  split; [exact W | split; [exact R | ]].
  intros p. split; reflexivity.
Qed.

Lemma agrees_moved (n : Cfg.name) (z : Z) (p : Panel) :
  agrees p -> agrees (updateVal n (set_slider n z p)).
Proof.
  intros A m. rewrite label_moved, slider_moved.
  destruct (name_eq_dec m n); [reflexivity | apply A].
Qed.

Lemma accepts_keeps (n : Cfg.name) (v : option Z) :
  accepts n v = true -> v = Some (sanitize n v).
Proof.
  destruct v as [z | ]; [ | discriminate].
  intros V. rewrite (sanitize_keeps n z V). reflexivity.
Qed.

Lemma config_loaded_label (n : Cfg.name) (dst lck mn mx : option Z)
  (p : Panel) :
  label n (config_loaded (ConfigObject dst lck mn mx) p)
  = reported n (ConfigObject dst lck mn mx).
Proof.
  cbn [config_loaded]. rewrite !label_setInput.
  destruct n; reflexivity.
Qed.

Lemma config_loaded_slider (n : Cfg.name) (dst lck mn mx : option Z)
  (p : Panel) :
  slider n (config_loaded (ConfigObject dst lck mn mx) p)
  = sanitize n (reported n (ConfigObject dst lck mn mx)).
Proof.
  cbn [config_loaded]. rewrite !slider_setInput.
  destruct n; reflexivity.
Qed.

Lemma accepted_accepts (n : Cfg.name) (dst lck mn mx : option Z) :
  accepted (ConfigObject dst lck mn mx) = true ->
  accepts n (reported n (ConfigObject dst lck mn mx)) = true.
Proof.
  cbn [accepted]. rewrite !andb_true_iff. intros [[[A B] C] D].
  destruct n; assumption.
Qed.

Lemma config_loaded_agrees (dst lck mn mx : option Z) (p : Panel) :
  accepted (ConfigObject dst lck mn mx) = true ->
  agrees (config_loaded (ConfigObject dst lck mn mx) p).
Proof.
  intros A n. rewrite config_loaded_label, config_loaded_slider.
  apply accepts_keeps, accepted_accepts, A.
Qed.

Lemma act_agrees (p : Panel) (a : action) :
  agrees p -> tame a = true -> agrees (act p a).
Proof.
  intros A T.
  destruct a as [ | mode | m | m | | c | n z | n delta | | c | t | c];
    cbn [act].
  - intros n. specialize (A n). destruct n; exact A.
  - intros n. specialize (A n). destruct n; exact A.
  - intros n. specialize (A n). destruct m, n; exact A.
  - intros n. specialize (A n). destruct m, n; exact A.
  - intros n. specialize (A n). destruct n; exact A.
  - intros n. specialize (A n). destruct c, n; exact A.
  - apply agrees_moved, A.
  - apply agrees_moved, A.
  - intros n. specialize (A n). destruct n; exact A.
  - intros n. specialize (A n). destruct c, n; exact A.
  - intros n. specialize (A n). destruct n; exact A.
  - destruct c as [ | dst lck mn mx]; [exact A | ].
    apply config_loaded_agrees, T.
Qed.

Lemma fold_agrees (actions : list action) (p : Panel) :
  agrees p -> forallb tame actions = true -> agrees (fold_left act actions p).
Proof.
  revert p. induction actions as [ | a actions IH]; intros p A T; [exact A | ].
  cbn [forallb] in T. apply andb_true_iff in T as [Ta T].
  cbn [fold_left]. apply IH; [apply act_agrees; assumption | exact T].
Qed.

(** X14: once a [/get_config] response has delivered four values the
    sliders accept, every label shows the value of its slider, whatever
    the operator does, for as long as no later response delivers a value
    the sliders do not accept. *)
Theorem labels_follow_sliders (before after : list action)
  (dst lck mn mx : option Z) (n : Cfg.name) :
  accepted (ConfigObject dst lck mn mx) = true ->
  forallb tame after = true ->
  label n (operate (before ++ ConfigLoaded (ConfigObject dst lck mn mx) :: after))
  = Some (slider n
            (operate
               (before ++ ConfigLoaded (ConfigObject dst lck mn mx) :: after))).
Proof.
  intros A T. unfold operate. rewrite fold_left_app. cbn [fold_left act].
  apply (fold_agrees after); [ | exact T].
  apply config_loaded_agrees, A.
Qed.

(** X15: the handler of a [/get_config] response shows each reported
    value in its label and leaves each slider on a valid value; a label
    shows the value of its slider exactly when the reported value is one
    the slider accepts, so a missing or out-of-range value leaves the
    label beside a slider that holds something else, which is what SAVE
    then sends. A [null] response changes nothing. *)
Theorem config_response_shown (dst lck mn mx : option Z) (p : Panel)
  (n : Cfg.name) :
  let c := ConfigObject dst lck mn mx in
  label n (config_loaded c p) = reported n c /\
  valid n (slider n (config_loaded c p)) = true /\
  (label n (config_loaded c p) = Some (slider n (config_loaded c p))
   <-> accepts n (reported n c) = true) /\
  In (match n with
      | Cfg.dist => "d" | Cfg.lock => "l" | Cfg.min => "mn" | Cfg.max => "mx"
      end,
      slider n (config_loaded c p))
    (query (last (sent (saveSettings (config_loaded c p))) (plain "/"))) /\
  config_loaded ConfigNull p = p.
Proof.
  intros c. unfold c.
  rewrite config_loaded_label, config_loaded_slider.
  split; [reflexivity | split; [apply sanitize_valid | split; [ | split]]].
  - split.
    + intros E. rewrite E. cbn [accepts]. apply sanitize_valid.
    + apply accepts_keeps.
  - unfold saveSettings, closeModal, fetch. cbn [set_modal sent].
    rewrite last_last. cbn [query].
    rewrite <- (config_loaded_slider n dst lck mn mx p).
    destruct n; cbn [In]; auto.
  - reflexivity.
Qed.

Lemma text_act (p : Panel) (a : action) :
  log_text (act p a) = text_after [a] (log_text p).
Proof.
  destruct a as [ | mode | m | m | | c | n z | n delta | | c | t | c];
    cbn [act text_after fold_left];
    try destruct c; try destruct m; try reflexivity;
    try (destruct n; reflexivity).
Qed.

Lemma fold_text (actions : list action) (p : Panel) :
  log_text (fold_left act actions p) = text_after actions (log_text p).
Proof.
  revert p. induction actions as [ | a actions IH]; intros p; [reflexivity | ].
  cbn [fold_left]. rewrite IH, text_act. reflexivity.
Qed.

(** X16: the log box shows the last of what [openModal('logs')], a
    confirmed [wipeLogs] and the [/get_logs] handler wrote, so a response
    that arrives after a wipe puts the old logs back over [[CLEARED]];
    [exportLogs] downloads exactly that text, as radar_logs.csv, and
    sends nothing. *)
Theorem export_downloads_log_box (actions : list action) :
  log_text (operate actions) = text_after actions "Loading..." /\
  downloads (operate (actions ++ [ExportLogs]))
  = downloads (operate actions)
    ++ [("radar_logs.csv", text_after actions "Loading...")] /\
  sent (operate (actions ++ [ExportLogs])) = sent (operate actions) /\
  (forall t,
     log_text (operate (actions ++ [WipeLogs true; LogsLoaded t])) = t).
Proof.
  assert (E : log_text (operate actions) = text_after actions "Loading...")
    by apply (fold_text actions served).
  split; [exact E | ].
  unfold operate in *. rewrite !fold_left_app. cbn [fold_left act].
  unfold exportLogs, download. cbn [downloads sent]. rewrite E.
  split; [reflexivity | split; [reflexivity | ]].
  intros t. rewrite fold_left_app. reflexivity.
Qed.

End Operation.

(** ** Runs on concrete inputs *)

#[local] Existing Instance taylor_engine.

(** C1 fails as stated: the range was 100, the next response omits [r] (or
    reports 0), and the range is 50 afterwards. *)
Lemma maxRange_reset_to_default :
  maxRange (run 400 [status (with_r (JS.number 100) sample)]) = JS.number 100 /\
  maxRange (run 400 [status (with_r (JS.number 100) sample);
                     status (with_r JS.undefined sample)]) = JS.number 50 /\
  maxRange (run 400 [status (with_r (JS.number 100) sample);
                     status (with_r (JS.number 0) sample)]) = JS.number 50 /\
  JS.number 50 <> JS.number 100.
Proof. repeat split; try (vm_compute; reflexivity). discriminate. Qed.

Lemma failed_poll_keeps_view_witness :
  failed NotOk = true /\
  isOffline (state_of (pollStatus NotOk tracking)) = true /\
  scanAngle (state_of (pollStatus NotOk tracking)) = scanAngle tracking /\
  currentMode (state_of (pollStatus NotOk tracking)) = currentMode tracking /\
  isRunning (state_of (pollStatus NotOk tracking)) = isRunning tracking /\
  maxRange (state_of (pollStatus NotOk tracking)) = maxRange tracking /\
  last_detection (state_of (pollStatus NotOk tracking)) = last_detection tracking.
Proof.
  split; [reflexivity | ].
  apply (failed_poll_keeps_view NotOk tracking). reflexivity.
Defined.

Lemma detection_fades_witness :
  settled (stored sample started) = true /\
  objects (stored sample started)
  = [] ++ [{| Obj.a := JS.number 90; Obj.r := JS.number 30; Obj.life := 1 |}] /\
  In {| Obj.a := JS.number 90; Obj.r := JS.number 30;
        Obj.life := life_after 49 |}
     (objects (draws 49 (stored sample started))) /\
  objects (draws 50 (stored sample started)) = [] /\
  objects (draws 51 (stored sample started)) = [].
Proof.
  assert (S : settled (stored sample started) = true)
    by (vm_compute; reflexivity).
  assert (E : objects (stored sample started)
              = [] ++ [{| Obj.a := JS.number 90; Obj.r := JS.number 30;
                          Obj.life := 1 |}])
    by (vm_compute; reflexivity).
  split; [exact S | split; [exact E | ]].
  destruct (detection_fades (stored sample started) [] (JS.number 90)
              (JS.number 30) S E) as [_ [_ [_ [I [_ [_ [G [G' _]]]]]]]].
  split; [exact I | split; [exact G | exact G']].
Defined.

(** The failing input of C3, run: an intrusion at 30 cm and angle 0 leaves
    the footer at its initial text, one at angle 1 is shown. *)
Example intrusion_at_angle_zero_run :
  last_detection
    (run 400 [status (with_li (JS.number 0) (JS.number 30) sample)]) = READY /\
  last_detection
    (run 400 [status (with_li (JS.number 1) (JS.number 30) sample)])
  = LAST (JS.number 30) (JS.number 1).
Proof. split; vm_compute; reflexivity. Qed.

Lemma draw_uses_mode_color_witness :
  settled mode_seven = true /\
  currentMode mode_seven = JS.number 7 /\
  recognised (currentMode mode_seven) = false /\
  exists s',
    draw mode_seven = Ok tt s' /\
    In (Outline (Css (assigned (currentMode mode_seven))) 2
          (traced (sweep_path mode_seven)))
       (paint new_context (calls_since mode_seven s')) /\
    In (fillStyle (Css (assigned (currentMode mode_seven) ++ "20")%string))
       (calls_since mode_seven s') /\
    parses (Css (assigned (currentMode mode_seven) ++ "20")%string) = false /\
    filter is_wedge (paint new_context (calls_since mode_seven s'))
    = [Area (Css "#000") (traced (glow_path mode_seven))] /\
    Css "#000" <> Css (assigned (currentMode mode_seven)) /\
    (recognised (currentMode mode_seven) = false ->
     assigned (currentMode mode_seven) = "#0f0") /\
    map assigned [JS.number 0; JS.number 1; JS.number 2; JS.number 3]
    = ["#0f0"; "#666"; "#f00"; "#f0f"].
Proof.
  split; [vm_compute; reflexivity | ].
  split; [vm_compute; reflexivity | ].
  split; [vm_compute; reflexivity | ].
  apply (draw_uses_mode_color mode_seven new_context).
  vm_compute; reflexivity.
Defined.

(** The pass on the sample response, in mode 0: the style assigned for
    the glow is [#0f020], and the wedge is filled with [#000]. *)
Example glow_not_in_mode_color :
  In (fillStyle (Css "#0f020")) (calls_since started tracking) /\
  filter is_wedge (paint new_context (calls_since started tracking))
  = [Area (Css "#000") (traced (glow_path tracking))] /\
  traced (glow_path tracking) = glow_path tracking /\
  map (fun c => hex_color (c ++ "20")) modeColors
  = [false; false; false; false] /\
  map hex_color ["#0f0"; "#0f02"; "#0f0200"; "#0f020000"]
  = [true; true; true; true].
Proof.
  split; [vm_compute; tauto | ]. repeat split; vm_compute; reflexivity.
Qed.

Lemma draw_detections_witness :
  settled out_of_range = true /\
  tick (objects out_of_range) = [near; far] /\
  shown out_of_range near = true /\
  takes (circle out_of_range near) = true /\
  (radius out_of_range <? display_distance out_of_range far) = true /\
  exists s',
    draw out_of_range = Ok tt s' /\
    objects s' = tick (objects out_of_range) /\
    filter is_blip (paint new_context (calls_since out_of_range s'))
    = map (fun obj => Area (Rgba 255 50 50 (Obj.life obj))
                        (traced [circle out_of_range obj]))
          (filter (shown out_of_range) (objects s')) /\
    (forall obj, takes (circle out_of_range obj) = true ->
       traced [circle out_of_range obj] = [circle out_of_range obj]) /\
    List.length (paint new_context (calls_since out_of_range s'))
    = (12 + List.length (filter (shown out_of_range) (objects s'))
       + (if isOffline out_of_range then 1 else 0))%nat /\
    (forall obj,
       (radius out_of_range <? display_distance out_of_range obj) = true ->
       shown out_of_range obj = false) /\
    (forall obj, In obj (objects s') ->
       (4 <=? circle_radius (Obj.life obj)) = true /\
       (circle_radius (Obj.life obj) <? 8) = true) /\
    circle_radius 1 = 4 /\
    forallb (fun k => circle_radius (life_after k)
                      <? circle_radius (life_after (S k))) (seq 0 49) = true.
Proof.
  split; [vm_compute; reflexivity | ].
  split; [vm_compute; reflexivity | ].
  split; [vm_compute; reflexivity | ].
  split; [vm_compute; reflexivity | ].
  split; [vm_compute; reflexivity | ].
  apply (draw_detections out_of_range new_context).
  vm_compute; reflexivity.
Defined.

Lemma unknown_mode_breaks_badge_witness :
  Data.mode (with_mode (JS.number 7) sample) = JS.number 7 /\
  recognised (JS.number 7) = false /\
  is_nan 7 = false /\
  currentMode (stored (with_mode (JS.number 7) sample) tracking) = JS.number 7 /\
  JS.element modeNames
    (currentMode (stored (with_mode (JS.number 7) sample) tracking)) = None /\
  updateUI (stored (with_mode (JS.number 7) sample) tracking)
  = Throw (set_badge_className "undefined"
             (stored (with_mode (JS.number 7) sample) tracking)) /\
  JS.string_or
    (JS.element modeColors
       (currentMode (stored (with_mode (JS.number 7) sample) tracking))) "#0f0"
  = "#0f0" /\
  isOffline
    (state_of (pollStatus
       (Resolved (JsonObject (with_mode (JS.number 7) sample))) tracking))
  = true /\
  currentMode
    (state_of (pollStatus
       (Resolved (JsonObject (with_mode (JS.number 7) sample))) tracking))
  = JS.number 7.
Proof.
  split; [reflexivity | ].
  split; [reflexivity | ].
  split; [reflexivity | ].
  apply (unknown_mode_breaks_badge (with_mode (JS.number 7) sample) 7 tracking);
    reflexivity.
Defined.

(** The scenario of the specification: the detection is recorded at angle
    90 and distance 30, the sweep line is green, and the detection is shown
    at 147 = 60% of the display radius 245. *)
Example sample_scenario :
  objects (stored sample started)
  = [{| Obj.a := JS.number 90; Obj.r := JS.number 30; Obj.life := 1 |}] /\
  color tracking = "#0f0" /\
  radius tracking = 245 /\
  display_distance tracking
    {| Obj.a := JS.number 90; Obj.r := JS.number 30; Obj.life := 1 |} = 147.
Proof. repeat split; vm_compute; reflexivity. Qed.

(** ** The panel in a browser *)

Lemma snap_valid (n : Cfg.name) (v : option Z) : valid n (snap n v) = true.
Proof.
  apply valid_spec. destruct n, v as [z | ]; cbv [snap lo hi step];
    split; Z.div_mod_to_equations; lia.
Qed.

Lemma snap_keeps (n : Cfg.name) (z : Z) :
  valid n z = true -> snap n (Some z) = z.
Proof.
  intros V. apply valid_spec in V. revert V.
  destruct n; cbv [snap lo hi step]; intros [B S];
    Z.div_mod_to_equations; lia.
Qed.

Definition snapping : RangeInput :=
  {| sanitize := snap;
     sanitize_valid := snap_valid;
     sanitize_keeps := snap_keeps |}.

#[local] Existing Instance snapping.

(** The settings the firmware ships with, as the page shows them. *)
Definition defaults : config_json :=
  ConfigObject (Some 50%Z) (Some 2000%Z) (Some 15%Z) (Some 165%Z).


Lemma canvas_matches_renderer_witness :
  roomy 400 = true /\
  forallb fits [status sample; Resize 600; Poll NotOk] = true /\
  width (run 400 [status sample; Resize 600; Poll NotOk]) = JS.number 500 /\
  canvas_size (run 400 [status sample; Resize 600; Poll NotOk])
  = (500%Z, 260%Z) /\
  radius (run 400 [status sample; Resize 600; Poll NotOk]) = 245 /\
  cy (run 400 [status sample; Resize 600; Poll NotOk]) = 255.
Proof.
  assert (R : roomy 400 = true) by reflexivity.
  assert (F : forallb fits [status sample; Resize 600; Poll NotOk] = true)
    by reflexivity.
  split; [exact R | split; [exact F | ]].
  destruct (canvas_matches_renderer 400
              [status sample; Resize 600; Poll NotOk] R F)
    as [_ [_ [Hr [Hc _]]]].
  split; [vm_compute; reflexivity | ].
  split; [vm_compute; reflexivity | ].
  split; [exact Hr | exact Hc].
Defined.

(** Two steps below the bound, the + button of the distance stops at 200. *)
Lemma adjust_stops_at_bounds_witness :
  valid Cfg.dist (slider Cfg.dist (operate [Slide Cfg.dist 198])) = true /\
  (5 mod step Cfg.dist = 0)%Z /\
  slider Cfg.dist (adjust Cfg.dist 5 (operate [Slide Cfg.dist 198])) = 200%Z /\
  label Cfg.dist (adjust Cfg.dist 5 (operate [Slide Cfg.dist 198]))
  = Some 200%Z.
Proof.
  assert (V : valid Cfg.dist (slider Cfg.dist (operate [Slide Cfg.dist 198]))
              = true) by reflexivity.
  assert (D : (5 mod step Cfg.dist = 0)%Z) by reflexivity.
  split; [exact V | split; [exact D | ]].
  destruct (adjust_stops_at_bounds Cfg.dist 5 (operate [Slide Cfg.dist 198])
              V D) as [E [_ [L _]]].
  split; [exact E | exact L].
Defined.

Lemma adjust_back_and_forth_witness :
  valid Cfg.lock (slider Cfg.lock (operate [ConfigLoaded defaults])) = true /\
  (100 mod step Cfg.lock = 0)%Z /\
  (lo Cfg.lock <= slider Cfg.lock (operate [ConfigLoaded defaults]) + 100
   <= hi Cfg.lock)%Z /\
  slider Cfg.lock (adjust Cfg.lock 100 (operate [ConfigLoaded defaults]))
  = 2100%Z /\
  adjust Cfg.lock (-100)
    (adjust Cfg.lock 100 (operate [ConfigLoaded defaults]))
  = operate [ConfigLoaded defaults].
Proof.
  split; [reflexivity | split; [reflexivity | ]].
  assert (R : (lo Cfg.lock
               <= slider Cfg.lock (operate [ConfigLoaded defaults]) + 100
               <= hi Cfg.lock)%Z) by (vm_compute; split; discriminate).
  split; [exact R | split; [reflexivity | ]].
  apply (@adjust_back_and_forth snapping Cfg.lock 100
           (operate [ConfigLoaded defaults]));
    [reflexivity | reflexivity | exact R | reflexivity].
Defined.

Lemma labels_follow_sliders_witness :
  accepted defaults = true /\
  forallb tame [Adjust Cfg.dist 5; Slide Cfg.min 20; SaveSettings] = true /\
  label Cfg.dist
    (operate [OpenModal config; ConfigLoaded defaults;
              Adjust Cfg.dist 5; Slide Cfg.min 20; SaveSettings])
  = Some 55%Z.
Proof.
  assert (A : accepted defaults = true) by reflexivity.
  assert (T : forallb tame [Adjust Cfg.dist 5; Slide Cfg.min 20; SaveSettings]
              = true) by reflexivity.
  split; [exact A | split; [exact T | ]].
  exact (labels_follow_sliders [OpenModal config]
           [Adjust Cfg.dist 5; Slide Cfg.min 20; SaveSettings]
           (Some 50%Z) (Some 2000%Z) (Some 15%Z) (Some 165%Z) Cfg.dist A T).
Defined.

(** A session at the panel: the settings are opened, the device answers
    with a distance of 500 cm, which the slider cannot hold, the operator
    saves, then wipes the logs after declining once. The label reads 500
    beside a slider at 200, and 200 is what is saved. *)
Example panel_session :
  let p := operate [OpenModal config;
                    ConfigLoaded (ConfigObject (Some 500%Z) (Some 2000%Z)
                                    (Some 15%Z) (Some 165%Z));
                    SaveSettings; OpenModal logs; WipeLogs false;
                    WipeLogs true] in
  label Cfg.dist p = Some 500%Z /\
  slider Cfg.dist p = 200%Z /\
  sent p = [plain "/get_config";
            {| path := "/save_config";
               query := [("d", 200%Z); ("l", 2000%Z); ("mn", 15%Z);
                         ("mx", 165%Z)] |};
            plain "/get_logs"; plain "/clear_logs"] /\
  log_text p = "[CLEARED]" /\
  config_active p = false /\
  logs_active p = true.
Proof. repeat split. Qed.
